(** * The retrieval-augmented answering route ([src/app/api/llm/route.ts])

    A shallow embedding of the request handler [POST] and of the helpers it
    calls ([serperSearch], [mapAndScrapeUrls], [processWithEmbeddings],
    [processDirectContext], [generateLLMResponse]).

    Conventions of the embedding:
    - a JavaScript string is a [string] (a sequence of 8-bit code units);
      [toLowerCase] folds the letters [A]..[Z] only;
    - a JavaScript number that the route uses as a count ([pagesToCrawl],
      an HTTP status) is an integer, [Z] or [N];
    - an optional property ([x?: T], a destructuring default) is an [option];
    - an [async] function is a computation in the monad [Async]: it returns
      a value or throws, and it records, in order, the calls it makes to the
      external services (search, scraping, embeddings, model routing);
    - the external services themselves are the fields of a record [World]:
      what each of them answers is not decided by the route. *)

From Stdlib Require Import String Ascii List ZArith NArith Bool Lia DecimalString.
From Stdlib Require Import Sorted Permutation.
Import ListNotations.
Local Open Scope string_scope.
Local Open Scope Z_scope.

(* ===================================================================== *)
(** ** JavaScript built-ins used by the route *)
(* ===================================================================== *)

Module JS.

(** The line feed written [\n] in the source. *)
Definition nl : string := String (ascii_of_nat 10) EmptyString.

(** Truthiness of a string: only the empty string is falsy. *)
Definition truthy (s : string) : bool :=
  match s with
  | EmptyString => false
  | String _ _ => true
  end.

(** [o || d] for an optional string [o]: an absent or empty value yields
    the default. *)
Definition or_default (o : option string) (d : string) : string :=
  match o with
  | Some s => if truthy s then s else d
  | None => d
  end.

(** [!!o] for an optional string. *)
Definition truthy_opt (o : option string) : bool :=
  match o with
  | Some s => truthy s
  | None => false
  end.

Definition lower_ascii (c : ascii) : ascii :=
  let n := nat_of_ascii c in
  if (Nat.leb 65 n && Nat.leb n 90)%bool then ascii_of_nat (n + 32) else c.

(** [String.prototype.toLowerCase]. *)
Fixpoint toLowerCase (s : string) : string :=
  match s with
  | EmptyString => EmptyString
  | String c r => String (lower_ascii c) (toLowerCase r)
  end.

(** [s.startsWith(p)]. *)
Fixpoint startsWith (s p : string) : bool :=
  match p, s with
  | EmptyString, _ => true
  | String _ _, EmptyString => false
  | String a p', String b s' => (Ascii.eqb a b && startsWith s' p')%bool
  end.

(** [String.prototype.includes]: [p] occurs in [s] at some position. *)
Fixpoint includes (s p : string) : bool :=
  match s with
  | EmptyString => startsWith s p
  | String _ r => (startsWith s p || includes r p)%bool
  end.

(** White space and line terminators stripped by [trim] (those that fit
    in 8 bits). *)
Definition isWhiteSpace (c : ascii) : bool :=
  let n := nat_of_ascii c in
  ((Nat.leb 9 n && Nat.leb n 13) || Nat.eqb n 32 || Nat.eqb n 160)%bool.

Fixpoint trimStart (s : string) : string :=
  match s with
  | EmptyString => EmptyString
  | String c r => if isWhiteSpace c then trimStart r else s
  end.

Fixpoint trimEnd (s : string) : string :=
  match s with
  | EmptyString => EmptyString
  | String c r =>
      let r' := trimEnd r in
      if (negb (truthy r') && isWhiteSpace c)%bool then EmptyString
      else String c r'
  end.

(** [String.prototype.trim]. *)
Definition trim (s : string) : string := trimEnd (trimStart s).

(** [Array.prototype.join]. *)
Definition join (sep : string) (l : list string) : string :=
  String.concat sep l.

(** [s.split(sep)] for a one-character separator: the pieces between the
    occurrences of [sep], never an empty array. *)
Fixpoint split (sep : ascii) (s : string) : list string :=
  match s with
  | EmptyString => [EmptyString]
  | String c r =>
      if Ascii.eqb c sep then EmptyString :: split sep r
      else match split sep r with
           | [] => [String c EmptyString]
           | piece :: pieces => String c piece :: pieces
           end
  end.

(** [Array.prototype.pop] read for its value: the last element, or
    [undefined]. *)
Definition pop {A : Type} (l : list A) : option A :=
  match rev l with
  | [] => None
  | x :: _ => Some x
  end.

(** [a.slice(0, n)] for an integer [n]; a negative [n] counts from the
    end of the array. *)
Definition slice0 {A : Type} (l : list A) (n : Z) : list A :=
  if n <? 0
  then firstn (Z.to_nat (Z.max (Z.of_nat (length l) + n) 0)) l
  else firstn (Z.to_nat n) l.

(** [Array.prototype.some]. *)
Definition some {A : Type} (f : A -> bool) (l : list A) : bool := existsb f l.

(** [Array.prototype.every]. *)
Definition every {A : Type} (f : A -> bool) (l : list A) : bool := forallb f l.

(** [k in o] for an object given by the list of its own keys. *)
Definition has_key (k : string) (keys : list string) : bool :=
  existsb (String.eqb k) keys.

(** The decimal rendering of a non-negative integer in a template. *)
Definition show_N (n : N) : string := NilZero.string_of_uint (N.to_uint n).

End JS.

(* ===================================================================== *)
(** ** Data model (section 5 of the source) *)
(* ===================================================================== *)

Record RequestBody := {
  message : option string;
  pagesToCrawl : option Z;
  skipEmbeddings : option bool
}.

Record ScrapedPage := {
  url : string;
  title : string;
  content : string
}.

Record FirecrawlMetadata := {
  sourceURL : option string;
  statusCode : option Z
}.

Record FirecrawlDocument := {
  markdown : option string;
  metadata : option FirecrawlMetadata
}.

Record SearchResult := {
  sr_title : string;
  link : string;
  favicon : string
}.

Record Provider := {
  provider : string;
  model : string
}.

(** The object [generateLLMResponse] returns: it is built with the two
    keys [content] and [providers], whose values are [undefined] when the
    routing service's result lacks them. *)
Record LLMResponse := {
  llm_content : option string;
  providers : option (list Provider)
}.

Definition LLMResponse_keys : list string := ["content"; "providers"].

(** ** Clamping of the page count ([POST], step 21) *)

Definition default_pagesToCrawl : Z := 3.

(** The destructuring default [pagesToCrawl = 3]. *)
Definition requested_pagesToCrawl (body : RequestBody) : Z :=
  match pagesToCrawl body with
  | Some n => n
  | None => default_pagesToCrawl
  end.

(** [Math.min(Math.max(1, pagesToCrawl), 10)]. *)
Definition validatePagesToCrawl (p : Z) : Z := Z.min (Z.max 1 p) 10.

(** ** Direct context ([processDirectContext], step 16) *)

Definition page_block (page : ScrapedPage) : string :=
  "Page: " ++ title page ++ JS.nl ++
  "URL: " ++ url page ++ JS.nl ++
  "Content:" ++ JS.nl ++
  content page ++ JS.nl ++
  "-------------------".

Definition processDirectContext (scrapedPages : list ScrapedPage) : string :=
  JS.join (JS.nl ++ JS.nl) (map (fun page => JS.trim (page_block page)) scrapedPages).

(* ===================================================================== *)
(** ** Asynchronous computations and the external services *)
(* ===================================================================== *)

(** A call that leaves the process. *)
Inductive Call :=
| SearchCall (q : string)                 (* POST to google.serper.dev *)
| ScrapeCall (urls : list string)         (* firecrawl.batchScrapeUrls *)
| EmbedDocumentsCall (texts : list string)
| EmbedQueryCall (text : string)
| RouteCall (system user : string).       (* notDiamond.create *)

Inductive Outcome (A : Type) :=
| Returned (a : A)
| Thrown (msg : string).

Arguments Returned {A} a.
Arguments Thrown {A} msg.

(** An [async] computation: the calls it made, in order, and how it ended. *)
Definition Async (A : Type) : Type := (list Call * Outcome A)%type.

Definition ret {A : Type} (a : A) : Async A := ([], Returned a).

Definition throw {A : Type} (msg : string) : Async A := ([], Thrown msg).

Definition bind {A B : Type} (m : Async A) (k : A -> Async B) : Async B :=
  match m with
  | (t, Returned a) => let (t', r) := k a in ((t ++ t')%list, r)
  | (t, Thrown e) => (t, Thrown e)
  end.

(** [await] of a call to an external service that answers [o]. *)
Definition await {A : Type} (c : Call) (o : Outcome A) : Async A := ([c], o).

Notation "x <- m ;; k" := (bind m (fun x => k))
  (at level 61, m at next level, right associativity).

(** The error of the first element of [xs] that throws. *)
Fixpoint first_thrown {A B : Type} (f : A -> Async B) (xs : list A) : option string :=
  match xs with
  | [] => None
  | x :: rest =>
      match snd (f x) with
      | Thrown e => Some e
      | Returned _ => first_thrown f rest
      end
  end.

(** The values of the elements of [xs], in the order of [xs]. *)
Fixpoint all_returned {A B : Type} (f : A -> Async B) (xs : list A) : Outcome (list B) :=
  match xs with
  | [] => Returned []
  | x :: rest =>
      match snd (f x), all_returned f rest with
      | Returned y, Returned ys => Returned (y :: ys)
      | Thrown e, _ => Thrown e
      | Returned _, Thrown e => Thrown e
      end
  end.

(** [await Promise.all(xs.map(f))]: every element is started, so the calls
    of all of them are made, also when one of them throws.  The elements
    run side by side: [issued] is the order in which they come to make
    their calls and [settled] the order in which they end.  The error of
    the element that throws first in time wins; without an error the
    values come in the order of the array. *)
Definition promise_all {A B : Type} (f : A -> Async B) (xs issued settled : list A)
  : Async (list B) :=
  (List.concat (map (fun x => fst (f x)) issued),
   match first_thrown f settled with
   | Some e => Thrown e
   | None => all_returned f xs
   end).

(** One organic entry of the search service's JSON. *)
Record OrganicResult := {
  o_title : option string;
  o_link : string;
  o_favicons : option (list string)
}.

Record SerperResponse := {
  ok : bool;
  status : N;
  organic : list OrganicResult
}.

Record ScrapeResponse := {
  success : bool;
  data : option (list FirecrawlDocument)
}.

(** What [notDiamond.create] resolves to: nothing, an error-detail object
    [{detail}], or a completion [{content, providers}]. *)
Inductive NotDiamondResult :=
| NoResult
| ErrorDetail (detail : string)
| Completion (content : string) (providers : list Provider).

Record PageMetadata := {
  meta_url : string;
  meta_title : string
}.

(** A document returned by the similarity search. *)
Record Document := {
  pageContent : string;
  doc_metadata : PageMetadata
}.

(** An entry of the in-memory vector store, over the embedding vectors [V]. *)
Record MemoryVector (V : Type) := {
  mv_content : string;
  embedding : V;
  mv_metadata : PageMetadata
}.

Arguments mv_content {V} _.
Arguments embedding {V} _.
Arguments mv_metadata {V} _.

(** The external services and library routines of one request, and the
    timing of the pages that are embedded side by side: the order in
    which their windows are ready and their embedding calls made, and the
    order in which these calls end. *)
Record World := {
  Vec : Type;
  serper_fetch : string -> Outcome SerperResponse;
  batchScrapeUrls : list string -> Outcome ScrapeResponse;
  splitText : Z -> Z -> string -> list string;
  issueOrder : list ScrapedPage -> list ScrapedPage;
  issueOrder_perm : forall pages, Permutation (issueOrder pages) pages;
  settleOrder : list ScrapedPage -> list ScrapedPage;
  settleOrder_perm : forall pages, Permutation (settleOrder pages) pages;
  embedDocuments : list string -> Outcome (list Vec);
  embedQuery : string -> Outcome Vec;
  rank : Vec -> list (MemoryVector Vec) -> list (MemoryVector Vec);
  memoryVector_isArray : MemoryVector Vec -> bool;
  addVectors :
    list (MemoryVector Vec) -> list (MemoryVector Vec) ->
    Outcome (list (MemoryVector Vec));
  JSON_stringify : list Document -> string;
  notDiamond_create : string -> string -> Outcome NotDiamondResult
}.

Definition MemoryVectorStore (W : World) : Type := list (MemoryVector (Vec W)).

(** A library routine that runs inside the process: no call is recorded. *)
Definition settle {A : Type} (o : Outcome A) : Async A := ([], o).

(* ===================================================================== *)
(** ** Search ([serperSearch], steps 6 to 8) *)
(* ===================================================================== *)

Definition to_SearchResult (result : OrganicResult) : SearchResult :=
  {| sr_title := JS.or_default (o_title result) "No Title";
     link := o_link result;
     favicon :=
       match o_favicons result with
       | Some (f :: _) => JS.or_default (Some f) ""
       | _ => ""
       end |}.

(** The [catch] of the source logs the error and throws it again, so a
    throw of the body is a throw of the function.  The JSON of an [ok]
    response is read with its [organic] array, as the cast of the source
    has it. *)
Definition serperSearch (W : World) (message : string) (numberOfPagesToScan : Z)
  : Async (list SearchResult) :=
  response <- await (SearchCall message) (serper_fetch W message) ;;
  if negb (ok response)
  then throw ("Serper API error: " ++ JS.show_N (status response))
  else ret (map to_SearchResult (JS.slice0 (organic response) numberOfPagesToScan)).

(* ===================================================================== *)
(** ** Filtering and scraping ([mapAndScrapeUrls], steps 9 to 12) *)
(* ===================================================================== *)

Definition unsupportedDomains : list string :=
  [ "twitter.com"; "x.com"; "facebook.com"; "fb.com"; "instagram.com";
    "linkedin.com"; "tiktok.com"; "youtube.com"; "reddit.com"; "threads.net";
    "pinterest.com"; "tumblr.com"; "snapchat.com" ].

(** The lower-cased URL contains one of the unsupported domains. *)
Definition isUnsupported (url : string) : bool :=
  let lowerUrl := JS.toLowerCase url in
  JS.some (fun domain => JS.includes lowerUrl domain) unsupportedDomains.

Definition filterUrls (urls : list string) : list string :=
  filter (fun url => negb (isUnsupported url)) urls.

Definition noValidUrlsPage : ScrapedPage :=
  {| url := "No valid URLs";
     title := "No Results";
     content := "Unable to find non-social media content for this query." |}.

Definition scrapingFailedPage : ScrapedPage :=
  {| url := "Scraping failed";
     title := "Error";
     content := "Failed to scrape content from the provided URLs." |}.

(** [doc.metadata?.sourceURL]. *)
Definition doc_sourceURL (doc : FirecrawlDocument) : option string :=
  match metadata doc with
  | Some m => sourceURL m
  | None => None
  end.

(** [doc.metadata?.sourceURL && doc.markdown], as a filter condition. *)
Definition doc_usable (doc : FirecrawlDocument) : bool :=
  (JS.truthy_opt (doc_sourceURL doc) && JS.truthy_opt (markdown doc))%bool.

Definition doc_title (doc : FirecrawlDocument) : string :=
  match doc_sourceURL doc with
  | Some u => JS.or_default (JS.pop (JS.split "/"%char u)) "Title not available"
  | None => "Title not available"
  end.

Definition to_ScrapedPage (doc : FirecrawlDocument) : ScrapedPage :=
  {| url := JS.or_default (doc_sourceURL doc) "URL not available";
     title := doc_title doc;
     content := JS.or_default (markdown doc) "Content not available" |}.

Definition mapAndScrapeUrls (W : World) (message : string) (pagesToCrawl : Z)
  : Async (list ScrapedPage) :=
  searchResults <- serperSearch W message pagesToCrawl ;;
  let urls := map link searchResults in
  let filteredUrls := filterUrls urls in
  match filteredUrls with
  | [] => ret [noValidUrlsPage]
  | _ :: _ =>
      scrapedData <- await (ScrapeCall filteredUrls) (batchScrapeUrls W filteredUrls) ;;
      match success scrapedData, data scrapedData with
      | true, Some docs => ret (map to_ScrapedPage (filter doc_usable docs))
      | _, _ => ret [scrapingFailedPage]
      end
  end.

(* ===================================================================== *)
(** ** Embeddings ([processWithEmbeddings], steps 13 to 15) *)
(* ===================================================================== *)

(** [MemoryVectorStore.fromTexts(texts, metadata, embeddings)]: the texts
    are embedded in one call and stored with the page's metadata. *)
Definition fromTexts (W : World) (texts : list string) (meta : PageMetadata)
  : Async (MemoryVectorStore W) :=
  vectors <- await (EmbedDocumentsCall texts) (embedDocuments W texts) ;;
  ret (map (fun tv => {| mv_content := fst tv; embedding := snd tv; mv_metadata := meta |})
           (combine texts vectors)).

(** The loop of step 15: the entries of a later store are added to the
    first one when every one of them passes [Array.isArray].  What
    [Array.isArray] answers on a stored entry and what [addVectors] does
    with the entries and the [metadatas] of the later store are the
    library's. *)
Fixpoint combine_stores (W : World) (vectorStore : MemoryVectorStore W)
    (others : list (MemoryVectorStore W)) : Async (MemoryVectorStore W) :=
  match others with
  | [] => ret vectorStore
  | currentStore :: rest =>
      if JS.every (memoryVector_isArray W) currentStore
      then vectorStore' <- settle (addVectors W vectorStore currentStore) ;;
           combine_stores W vectorStore' rest
      else combine_stores W vectorStore rest
  end.

(** The result is [undefined] ([None]) when there is no page at all. *)
Definition processWithEmbeddings (W : World) (scrapedPages : list ScrapedPage)
    (textChunkSize textChunkOverlap : Z) : Async (option (MemoryVectorStore W)) :=
  processedContent <-
    promise_all
      (fun page =>
         let splitText := splitText W textChunkSize textChunkOverlap (content page) in
         fromTexts W splitText {| meta_url := url page; meta_title := title page |})
      scrapedPages (issueOrder W scrapedPages) (settleOrder W scrapedPages) ;;
  match processedContent with
  | [] => ret None
  | vectorStore :: others =>
      merged <- combine_stores W vectorStore others ;;
      ret (Some merged)
  end.

Definition to_Document {V : Type} (v : MemoryVector V) : Document :=
  {| pageContent := mv_content v; doc_metadata := mv_metadata v |}.

(** Modelled from the spec: [MemoryVectorStore.similaritySearch] belongs to
    the vector-store library, which is not part of the sources.  The query
    is embedded with the same service, the stored entries are ranked by
    similarity to it (the ranking is the service's, [rank]) and the top [k]
    are returned as documents carrying their page's metadata. *)
Definition similaritySearch (W : World) (store : MemoryVectorStore W)
    (query : string) (k : nat) : Async (list Document) :=
  queryVector <- await (EmbedQueryCall query) (embedQuery W query) ;;
  ret (map to_Document (firstn k (rank W queryVector store))).

(* ===================================================================== *)
(** ** Answering ([generateLLMResponse], step 17) *)
(* ===================================================================== *)

(** [context: string | any[]]. *)
Inductive Context :=
| DirectContext (text : string)
| Excerpts (docs : list Document).

Definition systemMessage (W : World) (context : Context) : string :=
  match context with
  | DirectContext text => "Answer based on the following pages of content: " ++ text
  | Excerpts docs =>
      "Answer based on the following relevant excerpts: " ++ JSON_stringify W docs
  end.

Definition generateLLMResponse (W : World) (context : Context) (message : string)
  : Async LLMResponse :=
  let system := systemMessage W context in
  result <- await (RouteCall system message) (notDiamond_create W system message) ;;
  match result with
  | NoResult => throw "Failed to generate LLM response"
  | ErrorDetail _ => ret {| llm_content := None; providers := None |}
  | Completion content ps => ret {| llm_content := Some content; providers := Some ps |}
  end.

(* ===================================================================== *)
(** ** The route handler ([POST], steps 18 to 26) *)
(* ===================================================================== *)

Record Source := {
  src_title : string;
  src_url : string
}.

Record CrawlInfo := {
  requestedPages : Z;
  actualPagesCrawled : nat;
  embeddingsUsed : bool
}.

Record ResponsePayload := {
  answer : option string;
  selectedModel : option Provider;
  crawlInfo : CrawlInfo;
  sources : list Source
}.

Inductive JsonBody :=
| ErrorBody (error : string)
| PayloadBody (payload : ResponsePayload).

(** [NextResponse.json(body, { status })]; the status is 200 when none is
    given. *)
Record HttpResponse := {
  http_status : Z;
  body : JsonBody
}.

Definition to_Source (page : ScrapedPage) : Source :=
  {| src_title := title page; src_url := url page |}.

Definition textChunkSize : Z := 800.
Definition textChunkOverlap : Z := 200.
Definition numberOfSimilarityResults : nat := 2.

(** Step 23: the context, by embedding preference. *)
Definition buildContext (W : World) (scrapedPages : list ScrapedPage)
    (message : string) (skip : bool) : Async Context :=
  if skip
  then ret (DirectContext (processDirectContext scrapedPages))
  else
    vectorStore <- processWithEmbeddings W scrapedPages textChunkSize textChunkOverlap ;;
    match vectorStore with
    | None => throw "Cannot read properties of undefined (reading 'similaritySearch')"
    | Some store =>
        docs <- similaritySearch W store message numberOfSimilarityResults ;;
        ret (Excerpts docs)
    end.

(** Steps 24 to 26: the check of the model's result and the payload.  The
    object checked is the one [generateLLMResponse] built, so its keys are
    [LLMResponse_keys]; [result.providers[0]] throws a [TypeError] when
    [providers] is [undefined]. *)
Definition assemble (pagesToCrawl : Z) (skip : bool) (sources : list Source)
    (result : LLMResponse) : Async HttpResponse :=
  if JS.has_key "detail" LLMResponse_keys
  then throw "Unknown error occurred"
  else
    match providers result with
    | None => throw "Cannot read properties of undefined (reading '0')"
    | Some ps =>
        ret {| http_status := 200;
               body := PayloadBody
                 {| answer := llm_content result;
                    selectedModel := nth_error ps 0;
                    crawlInfo :=
                      {| requestedPages := pagesToCrawl;
                         actualPagesCrawled := length sources;
                         embeddingsUsed := negb skip |};
                    sources := sources |} |}
    end.

(** [skipEmbeddings = false], the destructuring default. *)
Definition requested_skipEmbeddings (request : RequestBody) : bool :=
  match skipEmbeddings request with
  | Some b => b
  | None => false
  end.

(** Steps 21 to 26, for a message that passed the check of step 20. *)
Definition answerQuery (W : World) (message : string) (pagesToCrawl : Z) (skip : bool)
  : Async HttpResponse :=
  let validatedPagesToCrawl := validatePagesToCrawl pagesToCrawl in
  scrapedPages <- mapAndScrapeUrls W message validatedPagesToCrawl ;;
  let sources := map to_Source scrapedPages in
  context <- buildContext W scrapedPages message skip ;;
  result <- generateLLMResponse W context message ;;
  assemble pagesToCrawl skip sources result.

(** The body of the [try] block, on the parsed JSON body of the request. *)
Definition handle (W : World) (request : RequestBody) : Async HttpResponse :=
  let pagesToCrawl := requested_pagesToCrawl request in
  let skip := requested_skipEmbeddings request in
  match message request with
  | Some message =>
      if JS.truthy message
      then answerQuery W message pagesToCrawl skip
      else ret {| http_status := 400; body := ErrorBody "Message is required" |}
  | None => ret {| http_status := 400; body := ErrorBody "Message is required" |}
  end.

(** The handler: whatever the [try] block throws becomes a 500 response
    that carries the error's message. *)
Definition POST (W : World) (request : RequestBody) : list Call * HttpResponse :=
  match handle W request with
  | (calls, Returned response) => (calls, response)
  | (calls, Thrown msg) => (calls, {| http_status := 500; body := ErrorBody msg |})
  end.

(* ===================================================================== *)
(** ** Stand-ins for the external services *)
(* ===================================================================== *)

(** A world where the search returns [results], the scraper answers by
    [scraper], a text is cut into windows by [splitter] and the model
    router returns [routed].  A text is embedded as its length; the
    ranking keeps the store's order; the pages are embedded, and their
    calls end, in the order of the array. *)
Definition serviceWorld (results : list OrganicResult)
    (scraper : list string -> Outcome ScrapeResponse)
    (splitter : string -> list string)
    (routed : Outcome NotDiamondResult) : World :=
  {| Vec := nat;
     serper_fetch := fun _ => Returned {| ok := true; status := 200%N; organic := results |};
     batchScrapeUrls := scraper;
     splitText := fun _ _ text => splitter text;
     issueOrder := fun pages => pages;
     issueOrder_perm := fun pages => Permutation_refl pages;
     settleOrder := fun pages => pages;
     settleOrder_perm := fun pages => Permutation_refl pages;
     embedDocuments := fun texts => Returned (map String.length texts);
     embedQuery := fun text => Returned (String.length text);
     rank := fun _ store => store;
     memoryVector_isArray := fun _ => false;
     addVectors := fun store vectors => Returned (store ++ vectors)%list;
     JSON_stringify := fun docs => JS.join "," (map pageContent docs);
     notDiamond_create := fun _ _ => routed |}.

(** The scraper answers [scraped] whatever it is asked, and a text is one
    window. *)
Definition stubWorld (results : list OrganicResult) (scraped : Outcome ScrapeResponse)
    (routed : Outcome NotDiamondResult) : World :=
  serviceWorld results (fun _ => scraped) (fun text => [text]) routed.

Definition organicLink (l : string) : OrganicResult :=
  {| o_title := Some "A result"; o_link := l; o_favicons := None |}.

Definition scrapedDoc (u body : string) : FirecrawlDocument :=
  {| markdown := Some body;
     metadata := Some {| sourceURL := Some u; statusCode := Some 200 |} |}.

Definition gpt4oMini : Provider := {| provider := "openai"; model := "gpt-4o-mini" |}.

Definition okCompletion : Outcome NotDiamondResult :=
  Returned (Completion "An answer." [gpt4oMini]).

Definition question : string := "When did chatgpt canvas come out?".

Definition requestOf (pages : option Z) (skip : bool) : RequestBody :=
  {| message := Some question; pagesToCrawl := pages; skipEmbeddings := Some skip |}.

(** Every result is on an unsupported domain; the scraper must not be
    reached. *)
Definition socialOnlyWorld : World :=
  stubWorld [organicLink "https://twitter.com/x"; organicLink "https://www.YouTube.com/watch"]
            (Thrown "the scraper was called") okCompletion.


Definition threeResults : list OrganicResult :=
  [organicLink "https://example.org/a"; organicLink "https://Twitter.com/x";
   organicLink "https://news.site/b/"].

Definition twoDocs : Outcome ScrapeResponse :=
  Returned {| success := true;
              data := Some [scrapedDoc "https://example.org/a" "AAA";
                            scrapedDoc "https://news.site/b/" "BBB"] |}.

(** Everything answers. *)
Definition healthyWorld : World := stubWorld threeResults twoDocs okCompletion.

(** The model router resolves to nothing. *)
Definition noResultWorld : World := stubWorld threeResults twoDocs (Returned NoResult).

(** The model router resolves to an error-detail object. *)
Definition errorDetailWorld : World :=
  stubWorld threeResults twoDocs (Returned (ErrorDetail "An unexpected error occurred.")).

(** The scraper returns one document for each URL it is asked for. *)
Definition echoWorld : World :=
  serviceWorld threeResults
    (fun urls =>
       Returned {| success := true;
                   data := Some (map (fun u => scrapedDoc u "Body of the page.") urls) |})
    (fun text => [text])
    okCompletion.

(** Every page is cut into three windows. *)
Definition windowedWorld : World :=
  serviceWorld threeResults (fun _ => twoDocs)
    (fun text => [text ++ "#1"; text ++ "#2"; text ++ "#3"])
    okCompletion.

(** The scraper answers with a document whose [sourceURL] is not the URL
    it was asked for. *)
Definition otherSourceWorld : World :=
  stubWorld [organicLink "https://example.org/a"]
            (Returned {| success := true;
                         data := Some [scrapedDoc "https://twitter.com/x" "A post"] |})
            okCompletion.

(* ===================================================================== *)
(** ** Vocabulary of the properties *)
(* ===================================================================== *)

(** A scrape call asks for at most [n] URLs. *)
Definition scrapes_at_most (n : Z) (c : Call) : Prop :=
  match c with
  | ScrapeCall urls => Z.of_nat (length urls) <= n
  | _ => True
  end.

(** The service a call goes to. *)
Inductive Service := Search | Scraping | Embedding | Routing.

Definition service_of (c : Call) : Service :=
  match c with
  | SearchCall _ => Search
  | ScrapeCall _ => Scraping
  | EmbedDocumentsCall _ | EmbedQueryCall _ => Embedding
  | RouteCall _ _ => Routing
  end.

Definition is_route (c : Call) : bool :=
  match c with
  | RouteCall _ _ => true
  | _ => false
  end.

(** [trim] has nothing to remove at the end of [s]. *)
Definition trim_stable (s : string) : Prop :=
  JS.trimEnd s = s /\ JS.truthy s = true.

(** The payload of a request that went through. *)
Definition payloadOf (p : Z) (skip : bool) (pages : list ScrapedPage)
    (c : string) (ps : list Provider) : ResponsePayload :=
  {| answer := Some c;
     selectedModel := nth_error ps 0;
     crawlInfo :=
       {| requestedPages := p;
          actualPagesCrawled := length (map to_Source pages);
          embeddingsUsed := negb skip |};
     sources := map to_Source pages |}.

(** The system message of a routing call was rendered from at most [k]
    excerpts. *)
Definition routed_excerpts_at_most (W : World) (k : nat) (c : Call) : Prop :=
  match c with
  | RouteCall system _ =>
      exists docs, (length docs <= k)%nat /\ system = systemMessage W (Excerpts docs)
  | _ => True
  end.

(** The URL matches no unsupported domain. *)
Definition denylist_free (u : string) : Prop := isUnsupported u = false.

(** A scrape call asks for what the filter kept of the links of the first
    [n] results of a search. *)
Definition scrapes_filtered_search (W : World) (n : Z) (c : Call) : Prop :=
  match c with
  | ScrapeCall urls =>
      exists m r,
        serper_fetch W m = Returned r /\
        urls = filterUrls (map link (map to_SearchResult (JS.slice0 (organic r) n)))
  | _ => True
  end.

(** A scrape call asks only for URLs that match no unsupported domain. *)
Definition scrapes_denylist_free (c : Call) : Prop :=
  match c with
  | ScrapeCall urls => Forall denylist_free urls
  | _ => True
  end.

(** The sources of a successful response match no unsupported domain. *)
Definition sources_denylist_free (W : World) (request : RequestBody) : Prop :=
  forall payload,
    body (snd (POST W request)) = PayloadBody payload ->
    Forall (fun s => denylist_free (src_url s)) (sources payload).

(** The scraper reports, as [sourceURL], only URLs it was asked for. *)
Definition scraper_echoes (W : World) : Prop :=
  forall urls scrapedData docs doc u,
    batchScrapeUrls W urls = Returned scrapedData ->
    data scrapedData = Some docs ->
    In doc docs -> doc_sourceURL doc = Some u -> In u urls.

(* ===================================================================== *)
(** ** Vocabulary of the further properties *)
(* ===================================================================== *)

(** The place of a call in the course of a request. *)
Definition stage_of (c : Call) : nat :=
  match c with
  | SearchCall _ => 0
  | ScrapeCall _ => 1
  | EmbedDocumentsCall _ => 2
  | EmbedQueryCall _ => 3
  | RouteCall _ _ => 4
  end.

(** [c1] may come before [c2]: it belongs to an earlier stage, or both
    embed the windows of a page. *)
Definition may_precede (c1 c2 : Call) : Prop :=
  (stage_of c1 < stage_of c2)%nat \/ (stage_of c1 = 2%nat /\ stage_of c2 = 2%nat).

(** A call that carries the query carries [m]. *)
Definition carries_query (m : string) (c : Call) : Prop :=
  match c with
  | SearchCall q => q = m
  | EmbedQueryCall text => text = m
  | RouteCall _ user => user = m
  | _ => True
  end.

(** The body of a response, its [requestedPages] set aside. *)
Definition forget_requestedPages (b : JsonBody) : JsonBody :=
  match b with
  | ErrorBody e => ErrorBody e
  | PayloadBody p =>
      PayloadBody
        {| answer := answer p;
           selectedModel := selectedModel p;
           crawlInfo :=
             {| requestedPages := 0;
                actualPagesCrawled := actualPagesCrawled (crawlInfo p);
                embeddingsUsed := embeddingsUsed (crawlInfo p) |};
           sources := sources p |}
  end.

(** The windows of a page, as [POST] has them cut. *)
Definition windowsOf (W : World) (page : ScrapedPage) : list string :=
  splitText W textChunkSize textChunkOverlap (content page).

(** The embedding calls of the pages, one for each, in their order. *)
Definition embedCalls (W : World) (pages : list ScrapedPage) : list Call :=
  map (fun page => EmbedDocumentsCall (windowsOf W page)) pages.

Definition metadataOf (page : ScrapedPage) : PageMetadata :=
  {| meta_url := url page; meta_title := title page |}.

(** The string has no [/]. *)
Definition slash_free (s : string) : Prop := JS.includes s "/" = false.

(** A scraped document with the given [sourceURL] and [markdown]. *)
Definition docOf (u md : option string) : FirecrawlDocument :=
  {| markdown := md;
     metadata := Some {| sourceURL := u; statusCode := None |} |}.

(** [healthyWorld] with another answer of the search service. *)
Definition searchWorld (reply : Outcome SerperResponse) : World :=
  {| Vec := nat;
     serper_fetch := fun _ => reply;
     batchScrapeUrls := batchScrapeUrls healthyWorld;
     splitText := splitText healthyWorld;
     issueOrder := issueOrder healthyWorld;
     issueOrder_perm := issueOrder_perm healthyWorld;
     settleOrder := settleOrder healthyWorld;
     settleOrder_perm := settleOrder_perm healthyWorld;
     embedDocuments := embedDocuments healthyWorld;
     embedQuery := embedQuery healthyWorld;
     rank := rank healthyWorld;
     memoryVector_isArray := memoryVector_isArray healthyWorld;
     addVectors := addVectors healthyWorld;
     JSON_stringify := JSON_stringify healthyWorld;
     notDiamond_create := notDiamond_create healthyWorld |}.


(** The scraper returns four documents, of which only the first has both
    a source URL and a markdown body. *)
Definition partialWorld : World :=
  stubWorld threeResults
    (Returned {| success := true;
                 data := Some [scrapedDoc "https://example.org/a" "AAA";
                               docOf (Some "https://news.site/b/") None;
                               docOf (Some "") (Some "text");
                               docOf None (Some "text")] |})
    okCompletion.

(** The scraper succeeds with documents that all lack a markdown body. *)
Definition emptyPagesWorld : World :=
  stubWorld threeResults
    (Returned {| success := true;
                 data := Some [docOf (Some "https://example.org/a") None] |})
    okCompletion.

(** [healthyWorld] with the pages embedded, and their calls ending, in
    the reverse of their order: the windows of the last page are ready
    first. *)
Definition lateFirstWorld : World :=
  {| Vec := nat;
     serper_fetch := serper_fetch healthyWorld;
     batchScrapeUrls := batchScrapeUrls healthyWorld;
     splitText := splitText healthyWorld;
     issueOrder := fun pages => rev pages;
     issueOrder_perm := fun pages => Permutation_sym (Permutation_rev pages);
     settleOrder := fun pages => rev pages;
     settleOrder_perm := fun pages => Permutation_sym (Permutation_rev pages);
     embedDocuments := fun texts =>
       Thrown ("Could not embed " ++ String.concat "," texts);
     embedQuery := embedQuery healthyWorld;
     rank := rank healthyWorld;
     memoryVector_isArray := memoryVector_isArray healthyWorld;
     addVectors := addVectors healthyWorld;
     JSON_stringify := JSON_stringify healthyWorld;
     notDiamond_create := notDiamond_create healthyWorld |}.

(** Twelve results on one site. *)
Definition manyResults : list OrganicResult :=
  map (fun n => organicLink ("https://site.org/p" ++ JS.show_N n))
      [1; 2; 3; 4; 5; 6; 7; 8; 9; 10; 11; 12]%N.

(** The search finds twelve results and the scraper returns one document
    for each URL it is asked for. *)
Definition crowdedWorld : World :=
  serviceWorld manyResults
    (fun urls =>
       Returned {| success := true;
                   data := Some (map (fun u => scrapedDoc u "Body of the page.") urls) |})
    (fun text => [text])
    okCompletion.

(* ===================================================================== *)
(** * Properties *)
(* ===================================================================== *)

(** ** Running a [bind] *)

Lemma bind_run {A B : Type} (m : Async A) (k : A -> Async B) :
  bind m k =
  match snd m with
  | Returned a => ((fst m ++ fst (k a))%list, snd (k a))
  | Thrown e => (fst m, Thrown e)
  end.
Proof.
  destruct m as [t [a | e]]; simpl; [destruct (k a) | ]; reflexivity.
Qed.

(** A property of every recorded call passes through [bind]. *)
Lemma Forall_bind {A B : Type} (P : Call -> Prop) (m : Async A) (k : A -> Async B) :
  Forall P (fst m) ->
  (forall a, snd m = Returned a -> Forall P (fst (k a))) ->
  Forall P (fst (bind m k)).
Proof.
  intros Hm Hk. rewrite bind_run.
  destruct (snd m) as [a | e] eqn:E; simpl; [ | exact Hm].
  apply Forall_app. split; [exact Hm | apply Hk; reflexivity].
Qed.

(** What a successful [bind] is made of. *)
Lemma bind_inv {A B : Type} (m : Async A) (k : A -> Async B) (b : B) :
  snd (bind m k) = Returned b ->
  exists a, snd m = Returned a /\ snd (k a) = Returned b.
Proof.
  rewrite bind_run. destruct (snd m) as [a | e]; simpl; intros H.
  - exists a. split; [reflexivity | exact H].
  - discriminate H.
Qed.

(** ** Strings *)

Lemma trimEnd_cons (c : ascii) (r : string) :
  JS.trimEnd (String c r) =
  if (negb (JS.truthy (JS.trimEnd r)) && JS.isWhiteSpace c)%bool
  then EmptyString else String c (JS.trimEnd r).
Proof. reflexivity. Qed.

Lemma trim_stable_app (s t : string) : trim_stable t -> trim_stable (s ++ t).
Proof.
  intros [Ht Hne]. induction s as [| c s [IH1 IH2]].
  - split; assumption.
  - split; [ | reflexivity].
    cbn [append]. rewrite trimEnd_cons, IH1, IH2. reflexivity.
Qed.

Lemma page_block_stable (page : ScrapedPage) : trim_stable (page_block page).
Proof.
  unfold page_block. repeat apply trim_stable_app. split; reflexivity.
Qed.

Lemma trim_page_block (page : ScrapedPage) :
  JS.trim (page_block page) = page_block page.
Proof.
  unfold JS.trim.
  assert (Hs : JS.trimStart (page_block page) = page_block page) by reflexivity.
  rewrite Hs. apply page_block_stable.
Qed.

(** ** The page count *)

Lemma validatePagesToCrawl_range (p : Z) : 1 <= validatePagesToCrawl p <= 10.
Proof. unfold validatePagesToCrawl. lia. Qed.

Lemma validatePagesToCrawl_cases (p : Z) :
  validatePagesToCrawl p = if p <? 1 then 1 else if 10 <? p then 10 else p.
Proof.
  unfold validatePagesToCrawl.
  destruct (Z.ltb_spec p 1); [lia | ]. destruct (Z.ltb_spec 10 p); lia.
Qed.

Lemma slice0_length {A : Type} (l : list A) (n : Z) :
  0 <= n -> Z.of_nat (length (JS.slice0 l n)) <= n.
Proof.
  intros Hn. unfold JS.slice0. destruct (Z.ltb_spec n 0); [lia | ].
  rewrite length_firstn. lia.
Qed.

Lemma filterUrls_length (urls : list string) :
  (length (filterUrls urls) <= length urls)%nat.
Proof. apply filter_length_le. Qed.

(** ** The calls of each stage *)

Lemma serperSearch_trace (W : World) (m : string) (n : Z) :
  fst (serperSearch W m n) = [SearchCall m].
Proof.
  unfold serperSearch, await. rewrite bind_run. simpl.
  destruct (serper_fetch W m) as [r | e]; [ | reflexivity].
  destruct (ok r); reflexivity.
Qed.

Lemma serperSearch_returned (W : World) (m : string) (n : Z) (results : list SearchResult) :
  snd (serperSearch W m n) = Returned results ->
  exists r, serper_fetch W m = Returned r /\ ok r = true /\
            results = map to_SearchResult (JS.slice0 (organic r) n).
Proof.
  unfold serperSearch, await. rewrite bind_run. simpl.
  destruct (serper_fetch W m) as [r | e]; [ | discriminate].
  destruct (ok r) eqn:Hok; simpl; [ | discriminate].
  intros H. injection H as <-. exists r. repeat split. exact Hok.
Qed.

(** The scrape stage, case by case. *)
Lemma mapAndScrapeUrls_run (W : World) (m : string) (n : Z) :
  mapAndScrapeUrls W m n =
  match snd (serperSearch W m n) with
  | Thrown e => ([SearchCall m], Thrown e)
  | Returned results =>
      match filterUrls (map link results) with
      | [] => ([SearchCall m], Returned [noValidUrlsPage])
      | u :: us =>
          ([SearchCall m; ScrapeCall (u :: us)],
           match batchScrapeUrls W (u :: us) with
           | Thrown e => Thrown e
           | Returned scrapedData =>
               match success scrapedData, data scrapedData with
               | true, Some docs => Returned (map to_ScrapedPage (filter doc_usable docs))
               | _, _ => Returned [scrapingFailedPage]
               end
           end)
      end
  end.
Proof.
  unfold mapAndScrapeUrls. rewrite bind_run, serperSearch_trace.
  destruct (snd (serperSearch W m n)) as [results | e]; [ | reflexivity].
  destruct (filterUrls (map link results)) as [| u us]; [reflexivity | ].
  unfold await. rewrite bind_run. simpl.
  destruct (batchScrapeUrls W (u :: us)) as [sd | e]; [ | reflexivity].
  destruct (success sd), (data sd); reflexivity.
Qed.

Lemma promise_all_Forall {A B : Type} (P : Call -> Prop) (f : A -> Async B)
    (xs issued settled : list A) :
  (forall x, Forall P (fst (f x))) -> Forall P (fst (promise_all f xs issued settled)).
Proof.
  intros Hf. cbn [promise_all fst].
  induction issued as [| x issued IH]; cbn [map List.concat].
  - constructor.
  - apply Forall_app. split; [apply Hf | exact IH].
Qed.

Lemma combine_stores_trace (W : World) (others : list (MemoryVectorStore W))
    (vectorStore : MemoryVectorStore W) :
  fst (combine_stores W vectorStore others) = [].
Proof.
  revert vectorStore.
  induction others as [| s rest IH]; intros vectorStore; cbn [combine_stores].
  - reflexivity.
  - destruct (JS.every (memoryVector_isArray W) s); [ | apply IH].
    rewrite bind_run. unfold settle. simpl.
    destruct (addVectors W vectorStore s); simpl; [apply IH | reflexivity].
Qed.

Lemma processWithEmbeddings_calls (W : World) (pages : list ScrapedPage) (size overlap : Z) :
  Forall (fun c => service_of c = Embedding)
         (fst (processWithEmbeddings W pages size overlap)).
Proof.
  unfold processWithEmbeddings. apply Forall_bind.
  - apply promise_all_Forall. intros page. unfold fromTexts, await.
    rewrite bind_run. simpl.
    destruct (embedDocuments W _); simpl; repeat constructor.
  - intros [| s others] _; [constructor | ].
    rewrite bind_run, combine_stores_trace.
    destruct (snd (combine_stores W s others)); constructor.
Qed.

Lemma similaritySearch_run (W : World) (store : MemoryVectorStore W) (q : string) (k : nat) :
  similaritySearch W store q k =
  ([EmbedQueryCall q],
   match embedQuery W q with
   | Returned v => Returned (map to_Document (firstn k (rank W v store)))
   | Thrown e => Thrown e
   end).
Proof.
  unfold similaritySearch, await. rewrite bind_run. simpl.
  destruct (embedQuery W q); reflexivity.
Qed.

(** The search returns at most [k] documents. *)
Lemma similaritySearch_length (W : World) (store : MemoryVectorStore W) (q : string)
    (k : nat) (docs : list Document) :
  snd (similaritySearch W store q k) = Returned docs -> (length docs <= k)%nat.
Proof.
  rewrite similaritySearch_run. cbn [snd].
  destruct (embedQuery W q) as [v | e]; [ | discriminate].
  intros H. injection H as <-. rewrite length_map, length_firstn. apply Nat.le_min_l.
Qed.

Lemma buildContext_calls (W : World) (pages : list ScrapedPage) (m : string) (skip : bool) :
  Forall (fun c => service_of c = Embedding) (fst (buildContext W pages m skip)).
Proof.
  unfold buildContext. destruct skip; [constructor | ].
  apply Forall_bind; [apply processWithEmbeddings_calls | ].
  intros [store | ] _; [ | constructor].
  rewrite bind_run, similaritySearch_run. simpl.
  destruct (embedQuery W m); repeat constructor.
Qed.

(** In embedding mode the context is a list of at most two excerpts. *)
Lemma buildContext_excerpts (W : World) (pages : list ScrapedPage) (m : string)
    (context : Context) :
  snd (buildContext W pages m false) = Returned context ->
  exists docs, context = Excerpts docs /\ (length docs <= numberOfSimilarityResults)%nat.
Proof.
  unfold buildContext. intros H.
  apply bind_inv in H. destruct H as [[store | ] [_ H]]; [ | discriminate].
  apply bind_inv in H. destruct H as [docs [Hd H]].
  injection H as <-. exists docs. split; [reflexivity | ].
  exact (similaritySearch_length W store m numberOfSimilarityResults docs Hd).
Qed.

Lemma generateLLMResponse_run (W : World) (context : Context) (m : string) :
  generateLLMResponse W context m =
  ([RouteCall (systemMessage W context) m],
   match notDiamond_create W (systemMessage W context) m with
   | Returned NoResult => Thrown "Failed to generate LLM response"
   | Returned (ErrorDetail _) => Returned {| llm_content := None; providers := None |}
   | Returned (Completion c ps) =>
       Returned {| llm_content := Some c; providers := Some ps |}
   | Thrown e => Thrown e
   end).
Proof.
  unfold generateLLMResponse, await. rewrite bind_run. simpl.
  destruct (notDiamond_create W _ m) as [[| d | c ps] | e]; reflexivity.
Qed.

Lemma assemble_trace (p : Z) (skip : bool) (srcs : list Source) (result : LLMResponse) :
  fst (assemble p skip srcs result) = [].
Proof. unfold assemble. simpl. destruct (providers result); reflexivity. Qed.

(** ** The handler, stage by stage *)

Lemma answerQuery_run (W : World) (m : string) (p : Z) (skip : bool) :
  answerQuery W m p skip =
  let scrape := mapAndScrapeUrls W m (validatePagesToCrawl p) in
  match snd scrape with
  | Thrown e => (fst scrape, Thrown e)
  | Returned pages =>
      let build := buildContext W pages m skip in
      match snd build with
      | Thrown e => ((fst scrape ++ fst build)%list, Thrown e)
      | Returned context =>
          ((fst scrape ++ fst build ++ [RouteCall (systemMessage W context) m])%list,
           match notDiamond_create W (systemMessage W context) m with
           | Returned NoResult => Thrown "Failed to generate LLM response"
           | Returned (ErrorDetail _) =>
               Thrown "Cannot read properties of undefined (reading '0')"
           | Returned (Completion c ps) =>
               Returned {| http_status := 200;
                           body := PayloadBody (payloadOf p skip pages c ps) |}
           | Thrown e => Thrown e
           end)
      end
  end.
Proof.
  unfold answerQuery. cbv zeta. rewrite bind_run.
  destruct (snd (mapAndScrapeUrls W m (validatePagesToCrawl p))) as [pages | e];
    [ | reflexivity].
  rewrite bind_run.
  destruct (snd (buildContext W pages m skip)) as [context | e]; cbn [fst snd];
    [ | reflexivity].
  rewrite bind_run, generateLLMResponse_run. cbn [fst snd].
  destruct (notDiamond_create W (systemMessage W context) m) as [[| d | c ps] | e];
    cbn [fst snd]; try rewrite assemble_trace; try rewrite app_nil_r; reflexivity.
Qed.

Lemma handle_answer (W : World) (request : RequestBody) (m : string) :
  message request = Some m -> JS.truthy m = true ->
  handle W request =
  answerQuery W m (requested_pagesToCrawl request) (requested_skipEmbeddings request).
Proof. intros Hm Ht. unfold handle. rewrite Hm, Ht. reflexivity. Qed.

Lemma handle_rejected (W : World) (request : RequestBody) :
  JS.truthy_opt (message request) = false ->
  handle W request = ret {| http_status := 400; body := ErrorBody "Message is required" |}.
Proof.
  unfold handle, JS.truthy_opt. destruct (message request) as [m | ]; [ | reflexivity].
  intros ->. reflexivity.
Qed.

Lemma POST_trace (W : World) (request : RequestBody) :
  fst (POST W request) = fst (handle W request).
Proof. unfold POST. destruct (handle W request) as [t [r | e]]; reflexivity. Qed.

Lemma POST_response (W : World) (request : RequestBody) :
  snd (POST W request) =
  match snd (handle W request) with
  | Returned response => response
  | Thrown msg => {| http_status := 500; body := ErrorBody msg |}
  end.
Proof. unfold POST. destruct (handle W request) as [t [r | e]]; reflexivity. Qed.

(** A request is either turned down at once or answered by [answerQuery]. *)
Lemma handle_cases (W : World) (request : RequestBody) :
  handle W request = ret {| http_status := 400; body := ErrorBody "Message is required" |} \/
  exists m, message request = Some m /\ JS.truthy m = true /\
            handle W request =
            answerQuery W m (requested_pagesToCrawl request)
                        (requested_skipEmbeddings request).
Proof.
  destruct (JS.truthy_opt (message request)) eqn:E.
  - right. unfold JS.truthy_opt in E. destruct (message request) as [m | ] eqn:Hm;
      [ | discriminate].
    exists m. repeat split; [exact E | ]. apply handle_answer; assumption.
  - left. apply handle_rejected. exact E.
Qed.

Lemma mapAndScrapeUrls_calls (W : World) (m : string) (n : Z) :
  Forall (fun c => c = SearchCall m \/
                   exists results,
                     snd (serperSearch W m n) = Returned results /\
                     filterUrls (map link results) <> [] /\
                     c = ScrapeCall (filterUrls (map link results)))
         (fst (mapAndScrapeUrls W m n)).
Proof.
  rewrite mapAndScrapeUrls_run.
  destruct (snd (serperSearch W m n)) as [results | e] eqn:Hs;
    [ | repeat constructor].
  destruct (filterUrls (map link results)) as [| u us] eqn:Hf; [repeat constructor | ].
  cbn [fst]. constructor; [left; reflexivity | ]. constructor; [ | constructor].
  right. exists results. rewrite Hf. repeat split. discriminate.
Qed.

Lemma filter_none {A : Type} (f : A -> bool) (l : list A) :
  Forall (fun x => f x = false) l -> filter f l = [].
Proof.
  induction 1 as [| x l Hx _ IH]; simpl; [reflexivity | ]. rewrite Hx. exact IH.
Qed.

(** A property of the calls of a query that is answered. *)
Lemma answerQuery_Forall (P : Call -> Prop) (W : World) (m : string) (p : Z) (skip : bool) :
  Forall P (fst (mapAndScrapeUrls W m (validatePagesToCrawl p))) ->
  (forall c, service_of c = Embedding -> P c) ->
  (forall pages context,
      snd (mapAndScrapeUrls W m (validatePagesToCrawl p)) = Returned pages ->
      snd (buildContext W pages m skip) = Returned context ->
      P (RouteCall (systemMessage W context) m)) ->
  Forall P (fst (answerQuery W m p skip)).
Proof.
  intros Hs He Hr. rewrite answerQuery_run. cbv zeta.
  destruct (snd (mapAndScrapeUrls W m (validatePagesToCrawl p))) as [pages | e] eqn:E1;
    [ | exact Hs].
  assert (Hb : Forall P (fst (buildContext W pages m skip))).
  { eapply Forall_impl; [ | apply buildContext_calls]. exact He. }
  destruct (snd (buildContext W pages m skip)) as [context | e] eqn:E2; cbn [fst].
  - repeat (apply Forall_app; split); try assumption.
    constructor; [ | constructor]. apply (Hr pages context); [reflexivity | exact E2].
  - apply Forall_app. split; assumption.
Qed.

Lemma POST_Forall (P : Call -> Prop) (W : World) (request : RequestBody) :
  (forall m, message request = Some m -> JS.truthy m = true ->
             Forall P (fst (answerQuery W m (requested_pagesToCrawl request)
                                        (requested_skipEmbeddings request)))) ->
  Forall P (fst (POST W request)).
Proof.
  intros H. rewrite POST_trace.
  destruct (handle_cases W request) as [E | [m [Hm [Ht E]]]]; rewrite E.
  - constructor.
  - apply H; assumption.
Qed.

Lemma serperSearch_length (W : World) (m : string) (n : Z) (results : list SearchResult) :
  0 <= n -> snd (serperSearch W m n) = Returned results ->
  Z.of_nat (length results) <= n.
Proof.
  intros Hn H. apply serperSearch_returned in H. destruct H as [r [_ [_ ->]]].
  rewrite length_map. apply slice0_length. exact Hn.
Qed.

Lemma scrape_bound (W : World) (m : string) (n : Z) :
  0 <= n -> Forall (scrapes_at_most n) (fst (mapAndScrapeUrls W m n)).
Proof.
  intros Hn. eapply Forall_impl; [ | apply mapAndScrapeUrls_calls].
  intros c [-> | [results [Hs [_ ->]]]]; [exact I | ].
  unfold scrapes_at_most. pose proof (serperSearch_length W m n results Hn Hs) as Hl.
  pose proof (filterUrls_length (map link results)) as Hf.
  rewrite length_map in Hf. lia.
Qed.

Lemma POST_scrape_bound (W : World) (request : RequestBody) :
  Forall (scrapes_at_most (validatePagesToCrawl (requested_pagesToCrawl request)))
         (fst (POST W request)).
Proof.
  apply POST_Forall. intros m _ _. apply answerQuery_Forall.
  - apply scrape_bound. pose proof (validatePagesToCrawl_range (requested_pagesToCrawl request)).
    lia.
  - intros [] Hc; try discriminate Hc; exact I.
  - intros; exact I.
Qed.

(** What a response that carries a payload went through. *)
Lemma POST_success_inv (W : World) (request : RequestBody) (payload : ResponsePayload) :
  body (snd (POST W request)) = PayloadBody payload ->
  exists m pages context c ps,
    message request = Some m /\ JS.truthy m = true /\
    snd (mapAndScrapeUrls W m (validatePagesToCrawl (requested_pagesToCrawl request)))
      = Returned pages /\
    snd (buildContext W pages m (requested_skipEmbeddings request)) = Returned context /\
    notDiamond_create W (systemMessage W context) m = Returned (Completion c ps) /\
    payload = payloadOf (requested_pagesToCrawl request)
                        (requested_skipEmbeddings request) pages c ps.
Proof.
  rewrite POST_response.
  destruct (handle_cases W request) as [E | [m [Hm [Ht E]]]]; rewrite E.
  - discriminate.
  - rewrite answerQuery_run. cbv zeta.
    destruct (snd (mapAndScrapeUrls W m _)) as [pages | e] eqn:E1; [ | discriminate].
    destruct (snd (buildContext W pages m _)) as [context | e] eqn:E2; [ | discriminate].
    cbn [snd].
    destruct (notDiamond_create W (systemMessage W context) m) as [[| d | c ps] | e] eqn:E3;
      try discriminate.
    cbn [body]. intros H. injection H as <-.
    exists m, pages, context, c, ps. repeat split; assumption.
Qed.

(** The response of a request that reaches the model router. *)
Lemma POST_routed (W : World) (request : RequestBody) (m : string)
    (pages : list ScrapedPage) (context : Context) :
  message request = Some m -> JS.truthy m = true ->
  snd (mapAndScrapeUrls W m (validatePagesToCrawl (requested_pagesToCrawl request)))
    = Returned pages ->
  snd (buildContext W pages m (requested_skipEmbeddings request)) = Returned context ->
  POST W request =
  ((fst (mapAndScrapeUrls W m (validatePagesToCrawl (requested_pagesToCrawl request))) ++
    fst (buildContext W pages m (requested_skipEmbeddings request)) ++
    [RouteCall (systemMessage W context) m])%list,
   match notDiamond_create W (systemMessage W context) m with
   | Returned NoResult =>
       {| http_status := 500; body := ErrorBody "Failed to generate LLM response" |}
   | Returned (ErrorDetail _) =>
       {| http_status := 500;
          body := ErrorBody "Cannot read properties of undefined (reading '0')" |}
   | Returned (Completion c ps) =>
       {| http_status := 200;
          body := PayloadBody (payloadOf (requested_pagesToCrawl request)
                                         (requested_skipEmbeddings request) pages c ps) |}
   | Thrown e => {| http_status := 500; body := ErrorBody e |}
   end).
Proof.
  intros Hm Ht Hs Hb. unfold POST.
  rewrite (handle_answer W request m Hm Ht), answerQuery_run. cbv zeta.
  rewrite Hs, Hb.
  destruct (notDiamond_create W (systemMessage W context) m) as [[| d | c ps] | e];
    reflexivity.
Qed.

Lemma mapAndScrapeUrls_no_route (W : World) (m : string) (n : Z) :
  Forall (fun c => is_route c = false) (fst (mapAndScrapeUrls W m n)).
Proof.
  eapply Forall_impl; [ | apply mapAndScrapeUrls_calls].
  intros c [-> | [results [_ [_ ->]]]]; reflexivity.
Qed.

Lemma buildContext_no_route (W : World) (pages : list ScrapedPage) (m : string) (skip : bool) :
  Forall (fun c => is_route c = false) (fst (buildContext W pages m skip)).
Proof.
  eapply Forall_impl; [ | apply buildContext_calls].
  intros [] H; try discriminate H; reflexivity.
Qed.

Lemma isUnsupported_url_of_usable (doc : FirecrawlDocument) :
  doc_usable doc = true -> doc_sourceURL doc = Some (url (to_ScrapedPage doc)).
Proof.
  unfold doc_usable, to_ScrapedPage, JS.truthy_opt, JS.or_default. cbn [url].
  destruct (doc_sourceURL doc) as [u | ]; [ | discriminate].
  destruct (JS.truthy u); [reflexivity | discriminate].
Qed.

Lemma filterUrls_denylist_free (urls : list string) :
  Forall denylist_free (filterUrls urls).
Proof.
  apply Forall_forall. intros u Hu. apply filter_In in Hu. destruct Hu as [_ Hu].
  unfold denylist_free. destruct (isUnsupported u); [discriminate | reflexivity].
Qed.

(** The pages of the scrape stage, case by case. *)
Lemma mapAndScrapeUrls_pages (W : World) (m : string) (n : Z) (pages : list ScrapedPage) :
  snd (mapAndScrapeUrls W m n) = Returned pages ->
  exists results,
    snd (serperSearch W m n) = Returned results /\
    (pages = [noValidUrlsPage] \/
     pages = [scrapingFailedPage] \/
     exists scrapedData docs,
       batchScrapeUrls W (filterUrls (map link results)) = Returned scrapedData /\
       data scrapedData = Some docs /\
       pages = map to_ScrapedPage (filter doc_usable docs)).
Proof.
  rewrite mapAndScrapeUrls_run.
  destruct (snd (serperSearch W m n)) as [results | e]; [ | discriminate].
  intros H. exists results. split; [reflexivity | ].
  destruct (filterUrls (map link results)) as [| u us].
  - left. injection H as <-. reflexivity.
  - cbn [snd] in H.
    destruct (batchScrapeUrls W (u :: us)) as [sd | e] eqn:Eb; [ | discriminate].
    destruct (success sd), (data sd) as [docs | ] eqn:Ed;
      injection H as <-; auto.
    right. right. exists sd, docs. auto.
Qed.

(* ===================================================================== *)
(** * The claims *)
(* ===================================================================== *)

Lemma serperSearch_returned_first (W : World) (m : string) (n : Z) (r : SerperResponse) :
  serper_fetch W m = Returned r -> ok r = true -> 1 <= n ->
  snd (serperSearch W m n) =
  Returned (map to_SearchResult (firstn (Z.to_nat n) (organic r))).
Proof.
  intros Hr Hok Hn. unfold serperSearch, await. rewrite bind_run. cbn [fst snd].
  rewrite Hr, Hok. cbn [negb snd ret]. unfold JS.slice0.
  destruct (Z.ltb_spec n 0); [lia | reflexivity].
Qed.

(** The calls of an answered request begin with those of the scrape
    stage. *)
Lemma POST_trace_prefix (W : World) (request : RequestBody) (m : string) :
  message request = Some m -> JS.truthy m = true ->
  exists rest,
    fst (POST W request) =
    (fst (mapAndScrapeUrls W m (validatePagesToCrawl (requested_pagesToCrawl request)))
     ++ rest)%list.
Proof.
  intros Hm Ht. unfold POST.
  rewrite (handle_answer W request m Hm Ht), answerQuery_run. cbv zeta.
  destruct (snd (mapAndScrapeUrls W m _)) as [pages | e].
  - destruct (snd (buildContext W pages m _)) as [context | e]; cbn [fst snd].
    + destruct (notDiamond_create W (systemMessage W context) m) as [[| d | c ps] | e];
        eexists; reflexivity.
    + eexists. reflexivity.
  - exists []. cbn [fst]. rewrite app_nil_r. reflexivity.
Qed.

(** C1.  The page count used for the search and the scrape is the
    caller's [pagesToCrawl], 3 when it is absent, clamped into [1,10]: it
    lies in that range, is 1 below it, 10 above it and the caller's value
    inside it (0 gives 1, 25 gives 10).  The handler runs the scrape
    stage with that count: a search that succeeds keeps exactly the first
    that many organic results (all of them when there are fewer), and the
    scraper is asked for exactly what the filter keeps of their links,
    never for more URLs than the count. *)
Theorem C1_pagesToCrawl_clamped (W : World) (request : RequestBody) :
  let p := requested_pagesToCrawl request in
  let v := validatePagesToCrawl p in
  p = match pagesToCrawl request with
      | Some n => n
      | None => 3
      end /\
  v = Z.min (Z.max 1 p) 10 /\
  1 <= v <= 10 /\
  v = (if p <? 1 then 1 else if 10 <? p then 10 else p) /\
  validatePagesToCrawl 0 = 1 /\
  validatePagesToCrawl 25 = 10 /\
  requested_pagesToCrawl
    {| message := message request; pagesToCrawl := None;
       skipEmbeddings := skipEmbeddings request |} = 3 /\
  validatePagesToCrawl 3 = 3 /\
  handle W request =
    match message request with
    | Some m =>
        if JS.truthy m
        then (scrapedPages <- mapAndScrapeUrls W m v ;;
              context <- buildContext W scrapedPages m (requested_skipEmbeddings request) ;;
              result <- generateLLMResponse W context m ;;
              assemble p (requested_skipEmbeddings request)
                       (map to_Source scrapedPages) result)
        else ret {| http_status := 400; body := ErrorBody "Message is required" |}
    | None => ret {| http_status := 400; body := ErrorBody "Message is required" |}
    end /\
  Forall (scrapes_at_most v) (fst (POST W request)) /\
  (forall m r,
      message request = Some m -> JS.truthy m = true ->
      serper_fetch W m = Returned r -> ok r = true ->
      let kept := firstn (Z.to_nat v) (organic r) in
      length kept = Nat.min (Z.to_nat v) (length (organic r)) /\
      snd (serperSearch W m v) = Returned (map to_SearchResult kept) /\
      fst (mapAndScrapeUrls W m v) =
        SearchCall m ::
        match filterUrls (map o_link kept) with
        | [] => []
        | u :: us => [ScrapeCall (u :: us)]
        end /\
      exists rest,
        fst (POST W request) =
        (SearchCall m ::
         match filterUrls (map o_link kept) with
         | [] => []
         | u :: us => [ScrapeCall (u :: us)]
         end ++ rest)%list).
Proof.
  cbv zeta.
  pose proof (validatePagesToCrawl_range (requested_pagesToCrawl request)) as Hrange.
  split; [reflexivity | ]. split; [reflexivity | ]. split; [exact Hrange | ].
  split; [apply validatePagesToCrawl_cases | ].
  split; [reflexivity | ]. split; [reflexivity | ].
  split; [reflexivity | ]. split; [reflexivity | ].
  split; [reflexivity | ]. split; [apply POST_scrape_bound | ].
  intros m r Hm Ht Hr Hok.
  assert (Hsearch :
            snd (serperSearch W m (validatePagesToCrawl (requested_pagesToCrawl request))) =
            Returned (map to_SearchResult
                          (firstn (Z.to_nat (validatePagesToCrawl
                                               (requested_pagesToCrawl request)))
                                  (organic r)))).
  { apply serperSearch_returned_first; [exact Hr | exact Hok | lia]. }
  assert (Hscrape :
            fst (mapAndScrapeUrls W m (validatePagesToCrawl (requested_pagesToCrawl request))) =
            SearchCall m ::
            match filterUrls
                    (map o_link
                         (firstn (Z.to_nat (validatePagesToCrawl
                                              (requested_pagesToCrawl request)))
                                 (organic r))) with
            | [] => []
            | u :: us => [ScrapeCall (u :: us)]
            end).
  { rewrite mapAndScrapeUrls_run, Hsearch, map_map. cbn [to_SearchResult link].
    change (fun x : OrganicResult => o_link x) with o_link.
    destruct (filterUrls (map o_link _)); reflexivity. }
  split; [apply length_firstn | ]. split; [exact Hsearch | ]. split; [exact Hscrape | ].
  destruct (POST_trace_prefix W request m Hm Ht) as [rest Hrest].
  exists rest. rewrite Hrest, Hscrape. reflexivity.
Qed.

Lemma C1_pagesToCrawl_clamped_witness :
  (exists rest,
     fst (POST crowdedWorld (requestOf (Some 25) true)) =
     (SearchCall question ::
      ScrapeCall ["https://site.org/p1"; "https://site.org/p2"; "https://site.org/p3";
                  "https://site.org/p4"; "https://site.org/p5"; "https://site.org/p6";
                  "https://site.org/p7"; "https://site.org/p8"; "https://site.org/p9";
                  "https://site.org/p10"] :: rest)%list) /\
  (exists rest,
     fst (POST crowdedWorld (requestOf (Some 0) true)) =
     (SearchCall question :: ScrapeCall ["https://site.org/p1"] :: rest)%list) /\
  (exists rest,
     fst (POST crowdedWorld (requestOf None true)) =
     (SearchCall question ::
      ScrapeCall ["https://site.org/p1"; "https://site.org/p2"; "https://site.org/p3"]
      :: rest)%list).
Proof.
  pose (r := {| ok := true; status := 200%N; organic := manyResults |}).
  split; [ | split].
  - destruct (C1_pagesToCrawl_clamped crowdedWorld (requestOf (Some 25) true))
      as [_ [_ [_ [_ [_ [_ [_ [_ [_ [_ H]]]]]]]]]].
    destruct (H question r eq_refl eq_refl eq_refl eq_refl) as [_ [_ [_ [rest Hr]]]].
    exists rest. exact Hr.
  - destruct (C1_pagesToCrawl_clamped crowdedWorld (requestOf (Some 0) true))
      as [_ [_ [_ [_ [_ [_ [_ [_ [_ [_ H]]]]]]]]]].
    destruct (H question r eq_refl eq_refl eq_refl eq_refl) as [_ [_ [_ [rest Hr]]]].
    exists rest. exact Hr.
  - destruct (C1_pagesToCrawl_clamped crowdedWorld (requestOf None true))
      as [_ [_ [_ [_ [_ [_ [_ [_ [_ [_ H]]]]]]]]]].
    destruct (H question r eq_refl eq_refl eq_refl eq_refl) as [_ [_ [_ [rest Hr]]]].
    exists rest. exact Hr.
Defined.

(** C3.  Direct-context mode is a pure concatenation: each page becomes
    the block ["Page: <title>\nURL: <url>\nContent:\n<content>\n-------------------"],
    which [trim] leaves as it is; the context is the blocks of the pages
    in input order joined by a blank line; no external service is called;
    and the single page [{title:"A", url:"u1", content:"c1"}] gives
    exactly ["Page: A\nURL: u1\nContent:\nc1\n-------------------"]. *)
Theorem C3_direct_context (W : World) (pages : list ScrapedPage) (m : string)
    (first second : ScrapedPage) :
  let block := fun page : ScrapedPage =>
    "Page: " ++ title page ++ JS.nl ++
    "URL: " ++ url page ++ JS.nl ++
    "Content:" ++ JS.nl ++
    content page ++ JS.nl ++
    "-------------------" in
  JS.nl = String (ascii_of_nat 10) EmptyString /\
  page_block first = block first /\
  JS.trim (block first) = block first /\
  processDirectContext pages = JS.join (JS.nl ++ JS.nl) (map block pages) /\
  processDirectContext pages = JS.join (JS.nl ++ JS.nl) (map page_block pages) /\
  processDirectContext [] = "" /\
  processDirectContext [first] = block first /\
  processDirectContext [first] = page_block first /\
  processDirectContext [first; second] = block first ++ JS.nl ++ JS.nl ++ block second /\
  processDirectContext (first :: second :: pages) =
    block first ++ JS.nl ++ JS.nl ++ processDirectContext (second :: pages) /\
  processDirectContext (first :: second :: pages) =
    page_block first ++ JS.nl ++ JS.nl ++ processDirectContext (second :: pages) /\
  processDirectContext [{| url := "u1"; title := "A"; content := "c1" |}] =
    "Page: A" ++ JS.nl ++ "URL: u1" ++ JS.nl ++ "Content:" ++ JS.nl ++ "c1" ++ JS.nl ++
    "-------------------" /\
  buildContext W pages m true = ([], Returned (DirectContext (processDirectContext pages))).
Proof.
  cbv zeta.
  assert (E : forall l, processDirectContext l = JS.join (JS.nl ++ JS.nl) (map page_block l)).
  { intros l. unfold processDirectContext. f_equal.
    apply map_ext. intros page. apply trim_page_block. }
  repeat split; try reflexivity.
  - apply (trim_page_block first).
  - apply E.
  - apply E.
  - rewrite E. reflexivity.
  - rewrite E. reflexivity.
  - rewrite E. reflexivity.
  - rewrite !E. reflexivity.
  - rewrite !E. reflexivity.
Qed.

(** C8.  A request whose [message] is missing or empty is answered at
    once with status 400 and ["Message is required"], and no call to any
    external service is made. *)
Theorem C8_empty_message_rejected (W : World) (pages : option Z) (skip : option bool) :
  POST W {| message := None; pagesToCrawl := pages; skipEmbeddings := skip |} =
    ([], {| http_status := 400; body := ErrorBody "Message is required" |}) /\
  POST W {| message := Some ""; pagesToCrawl := pages; skipEmbeddings := skip |} =
    ([], {| http_status := 400; body := ErrorBody "Message is required" |}).
Proof. split; reflexivity. Qed.

(** C2.  When no URL is left after the filter, the scrape stage returns
    the single page marked "No valid URLs" after the search call alone,
    the request makes no call to the scraper at all, and, once the context
    is built and the model router returns a completion, the response is a
    success whose sources are exactly that one page. *)
Theorem C2_no_valid_urls (W : World) (request : RequestBody) (m : string)
    (results : list SearchResult) :
  message request = Some m -> JS.truthy m = true ->
  snd (serperSearch W m (validatePagesToCrawl (requested_pagesToCrawl request)))
    = Returned results ->
  filterUrls (map link results) = [] ->
  mapAndScrapeUrls W m (validatePagesToCrawl (requested_pagesToCrawl request))
    = ([SearchCall m], Returned [noValidUrlsPage]) /\
  Forall (fun c => service_of c <> Scraping) (fst (POST W request)) /\
  forall context c ps,
    snd (buildContext W [noValidUrlsPage] m (requested_skipEmbeddings request))
      = Returned context ->
    notDiamond_create W (systemMessage W context) m = Returned (Completion c ps) ->
    snd (POST W request) =
    {| http_status := 200;
       body := PayloadBody
         {| answer := Some c;
            selectedModel := nth_error ps 0;
            crawlInfo :=
              {| requestedPages := requested_pagesToCrawl request;
                 actualPagesCrawled := 1;
                 embeddingsUsed := negb (requested_skipEmbeddings request) |};
            sources := [{| src_title := "No Results"; src_url := "No valid URLs" |}] |} |}.
Proof.
  intros Hm Ht Hs Hf.
  assert (Hrun : mapAndScrapeUrls W m (validatePagesToCrawl (requested_pagesToCrawl request))
                 = ([SearchCall m], Returned [noValidUrlsPage])).
  { rewrite mapAndScrapeUrls_run, Hs, Hf. reflexivity. }
  split; [exact Hrun | ]. split.
  - apply POST_Forall. intros m' Hm' _.
    assert (m' = m) by congruence. subst m'.
    apply answerQuery_Forall.
    + rewrite Hrun. repeat constructor. discriminate.
    + intros c Hc. rewrite Hc. discriminate.
    + intros; discriminate.
  - intros context c ps Hb Hc.
    rewrite (POST_routed W request m [noValidUrlsPage] context Hm Ht);
      [ | rewrite Hrun; reflexivity | exact Hb].
    rewrite Hc. reflexivity.
Qed.


(** C5.  When the model router returns no result, or an error-detail
    object in place of a completion, the request ends with an error
    response (status 500) and no payload; the router was called exactly
    once, nothing is tried again. *)
Theorem C5_llm_failure_is_fatal (W : World) (request : RequestBody) (m : string)
    (pages : list ScrapedPage) (context : Context) :
  message request = Some m -> JS.truthy m = true ->
  snd (mapAndScrapeUrls W m (validatePagesToCrawl (requested_pagesToCrawl request)))
    = Returned pages ->
  snd (buildContext W pages m (requested_skipEmbeddings request)) = Returned context ->
  (notDiamond_create W (systemMessage W context) m = Returned NoResult ->
   snd (POST W request) =
   {| http_status := 500; body := ErrorBody "Failed to generate LLM response" |}) /\
  (forall detail,
     notDiamond_create W (systemMessage W context) m = Returned (ErrorDetail detail) ->
     snd (POST W request) =
     {| http_status := 500;
        body := ErrorBody "Cannot read properties of undefined (reading '0')" |}) /\
  filter is_route (fst (POST W request)) = [RouteCall (systemMessage W context) m].
Proof.
  intros Hm Ht Hs Hb. rewrite (POST_routed W request m pages context Hm Ht Hs Hb).
  cbn [fst snd]. repeat split.
  - intros ->. reflexivity.
  - intros detail ->. reflexivity.
  - rewrite !filter_app, (filter_none _ _ (mapAndScrapeUrls_no_route W m _)),
      (filter_none _ _ (buildContext_no_route W pages m _)).
    reflexivity.
Qed.

(** C6.  In embedding mode the context handed to the model router holds
    at most 2 excerpts, whatever the pages and however many windows were
    embedded: the similarity search is asked for 2 results, and every
    routing call of the request carries a system message rendered from at
    most 2 excerpts. *)
Theorem C6_at_most_two_excerpts (W : World) (request : RequestBody) :
  requested_skipEmbeddings request = false ->
  numberOfSimilarityResults = 2%nat /\
  (forall pages m context,
      snd (buildContext W pages m false) = Returned context ->
      exists docs, context = Excerpts docs /\ (length docs <= 2)%nat) /\
  Forall (routed_excerpts_at_most W 2) (fst (POST W request)).
Proof.
  intros Hskip. split; [reflexivity | ]. split.
  - intros pages m context H. apply (buildContext_excerpts W pages m context H).
  - apply POST_Forall. intros m _ _. rewrite Hskip. apply answerQuery_Forall.
    + eapply Forall_impl; [ | apply mapAndScrapeUrls_calls].
      intros c [-> | [results [_ [_ ->]]]]; exact I.
    + intros [] Hc; try discriminate Hc; exact I.
    + intros pages context _ Hb.
      destruct (buildContext_excerpts W pages m context Hb) as [docs [-> Hl]].
      exists docs. split; [exact Hl | reflexivity].
Qed.

(** C9.  In a response that carries a payload, [sources] has one
    [{title, url}] entry for each page the scrape stage returned (the
    sentinel pages too), in the same order, and
    [crawlInfo.actualPagesCrawled] is the length of [sources]. *)
Theorem C9_sources_list_every_page (W : World) (request : RequestBody)
    (payload : ResponsePayload) :
  body (snd (POST W request)) = PayloadBody payload ->
  exists m pages,
    message request = Some m /\
    snd (mapAndScrapeUrls W m (validatePagesToCrawl (requested_pagesToCrawl request)))
      = Returned pages /\
    sources payload = map to_Source pages /\
    map src_title (sources payload) = map title pages /\
    map src_url (sources payload) = map url pages /\
    length (sources payload) = length pages /\
    actualPagesCrawled (crawlInfo payload) = length (sources payload).
Proof.
  intros H. apply POST_success_inv in H.
  destruct H as [m [pages [context [c [ps [Hm [_ [Hs [_ [_ ->]]]]]]]]]].
  exists m, pages. cbn [payloadOf sources crawlInfo actualPagesCrawled].
  repeat split; try assumption.
  - rewrite map_map. reflexivity.
  - rewrite map_map. reflexivity.
  - apply length_map.
Qed.

(** C10.  In a response that carries a payload, [crawlInfo.requestedPages]
    is the caller's own [pagesToCrawl] (3 when absent), not the clamped
    count, while the scraper is never asked for more than 10 URLs. *)
Theorem C10_requestedPages_is_raw (W : World) (request : RequestBody)
    (payload : ResponsePayload) :
  body (snd (POST W request)) = PayloadBody payload ->
  requestedPages (crawlInfo payload) = requested_pagesToCrawl request /\
  requestedPages (crawlInfo payload) =
    match pagesToCrawl request with
    | Some n => n
    | None => 3
    end /\
  Forall (scrapes_at_most 10) (fst (POST W request)).
Proof.
  intros H. apply POST_success_inv in H.
  destruct H as [m [pages [context [c [ps [_ [_ [_ [_ [_ ->]]]]]]]]]].
  repeat split.
  eapply Forall_impl; [ | apply POST_scrape_bound].
  intros [] Hc; try exact I. unfold scrapes_at_most in *.
  pose proof (validatePagesToCrawl_range (requested_pagesToCrawl request)). lia.
Qed.

(** C4 (amended).  The filter runs on the links of the first [maxResults]
    search results and only removes from them: what it keeps is part of
    that list, is no longer than it, and matches no unsupported domain.
    The scraper is only ever asked for URLs that match no unsupported
    domain.  The sources of a response match no unsupported domain
    provided the scraper reports, as [sourceURL], only URLs it was asked
    for: the route takes them from the scraper's answer as they come. *)
Theorem C4_filtering_monotonic (W : World) (request : RequestBody)
    (found : list OrganicResult) (maxResults : Z) :
  let searched := map link (map to_SearchResult (JS.slice0 found maxResults)) in
  incl (filterUrls searched) searched /\
  (length (filterUrls searched) <= length searched)%nat /\
  Forall denylist_free (filterUrls searched) /\
  Forall scrapes_denylist_free (fst (POST W request)) /\
  Forall (scrapes_filtered_search W (validatePagesToCrawl (requested_pagesToCrawl request)))
         (fst (POST W request)) /\
  (scraper_echoes W -> sources_denylist_free W request).
Proof.
  cbv zeta. split; [ | split; [ | split; [ | split; [ | split]]]].
  - intros u Hu. apply filter_In in Hu. apply Hu.
  - apply filterUrls_length.
  - apply filterUrls_denylist_free.
  - apply POST_Forall. intros m _ _. apply answerQuery_Forall.
    + eapply Forall_impl; [ | apply mapAndScrapeUrls_calls].
      intros c [-> | [results [_ [_ ->]]]]; [exact I | ].
      apply filterUrls_denylist_free.
    + intros [] Hc; try discriminate Hc; exact I.
    + intros; exact I.
  - apply POST_Forall. intros m _ _. apply answerQuery_Forall.
    + eapply Forall_impl; [ | apply mapAndScrapeUrls_calls].
      intros c [-> | [results [Hs [_ ->]]]]; [exact I | ].
      apply serperSearch_returned in Hs. destruct Hs as [r [Hr [_ ->]]].
      exists m, r. split; [exact Hr | reflexivity].
    + intros [] Hc; try discriminate Hc; exact I.
    + intros; exact I.
  - intros Hecho payload H. apply POST_success_inv in H.
    destruct H as [m [pages [context [c [ps [_ [_ [Hs [_ [_ ->]]]]]]]]]].
    cbn [payloadOf sources]. apply Forall_map. cbn [to_Source src_url].
    apply mapAndScrapeUrls_pages in Hs.
    destruct Hs as [results [_ [-> | [-> | [sd [docs [Hb [Hd ->]]]]]]]].
    + repeat constructor.
    + repeat constructor.
    + apply Forall_map. apply Forall_forall. intros doc Hdoc.
      apply filter_In in Hdoc. destruct Hdoc as [Hin Hus].
      apply isUnsupported_url_of_usable in Hus.
      pose proof (Hecho _ _ _ _ _ Hb Hd Hin Hus) as Hu.
      pose proof (filterUrls_denylist_free (map link results)) as Hfree.
      rewrite Forall_forall in Hfree. apply Hfree. exact Hu.
Qed.

(** ** The claims at concrete requests *)

Lemma C2_no_valid_urls_witness :
  filterUrls ["https://twitter.com/x"; "https://www.YouTube.com/watch"] = [] /\
  fst (POST socialOnlyWorld (requestOf (Some 5) false)) =
    [SearchCall question;
     EmbedDocumentsCall ["Unable to find non-social media content for this query."];
     EmbedQueryCall question;
     RouteCall ("Answer based on the following relevant excerpts: " ++
                "Unable to find non-social media content for this query.") question] /\
  snd (POST socialOnlyWorld (requestOf (Some 5) false)) =
    {| http_status := 200;
       body := PayloadBody
         {| answer := Some "An answer.";
            selectedModel := Some gpt4oMini;
            crawlInfo :=
              {| requestedPages := 5; actualPagesCrawled := 1; embeddingsUsed := true |};
            sources := [{| src_title := "No Results"; src_url := "No valid URLs" |}] |} |}.
Proof.
  split; [reflexivity | ]. split; [reflexivity | ].
  destruct (C2_no_valid_urls socialOnlyWorld (requestOf (Some 5) false) question
              (map to_SearchResult
                   [organicLink "https://twitter.com/x";
                    organicLink "https://www.YouTube.com/watch"])
              eq_refl eq_refl eq_refl eq_refl) as [_ [_ H]].
  exact (H (Excerpts [{| pageContent := content noValidUrlsPage;
                         doc_metadata := {| meta_url := "No valid URLs";
                                            meta_title := "No Results" |} |}])
           "An answer." [gpt4oMini] eq_refl eq_refl).
Defined.


Lemma C5_llm_failure_is_fatal_witness :
  snd (POST noResultWorld (requestOf (Some 3) true)) =
    {| http_status := 500; body := ErrorBody "Failed to generate LLM response" |} /\
  snd (POST errorDetailWorld (requestOf (Some 3) true)) =
    {| http_status := 500;
       body := ErrorBody "Cannot read properties of undefined (reading '0')" |} /\
  length (filter is_route (fst (POST errorDetailWorld (requestOf (Some 3) true)))) = 1%nat.
Proof.
  pose (pages := map to_ScrapedPage [scrapedDoc "https://example.org/a" "AAA";
                                     scrapedDoc "https://news.site/b/" "BBB"]).
  destruct (C5_llm_failure_is_fatal noResultWorld (requestOf (Some 3) true) question
              pages (DirectContext (processDirectContext pages))
              eq_refl eq_refl eq_refl eq_refl) as [H1 _].
  destruct (C5_llm_failure_is_fatal errorDetailWorld (requestOf (Some 3) true) question
              pages (DirectContext (processDirectContext pages))
              eq_refl eq_refl eq_refl eq_refl) as [_ [H2 H3]].
  split; [exact (H1 eq_refl) | ].
  split; [exact (H2 "An unexpected error occurred." eq_refl) | ].
  rewrite H3. reflexivity.
Defined.

Lemma C6_at_most_two_excerpts_witness :
  Forall (routed_excerpts_at_most windowedWorld 2)
         (fst (POST windowedWorld (requestOf None false))) /\
  fst (POST windowedWorld (requestOf None false)) =
    [SearchCall question;
     ScrapeCall ["https://example.org/a"; "https://news.site/b/"];
     EmbedDocumentsCall ["AAA#1"; "AAA#2"; "AAA#3"];
     EmbedDocumentsCall ["BBB#1"; "BBB#2"; "BBB#3"];
     EmbedQueryCall question;
     RouteCall "Answer based on the following relevant excerpts: AAA#1,AAA#2" question].
Proof.
  split.
  - exact (proj2 (proj2 (C6_at_most_two_excerpts windowedWorld (requestOf None false) eq_refl))).
  - reflexivity.
Defined.

Lemma C9_sources_list_every_page_witness :
  exists payload,
    body (snd (POST healthyWorld (requestOf (Some 5) false))) = PayloadBody payload /\
    sources payload =
      [{| src_title := "a"; src_url := "https://example.org/a" |};
       {| src_title := "Title not available"; src_url := "https://news.site/b/" |}] /\
    actualPagesCrawled (crawlInfo payload) = length (sources payload).
Proof.
  eexists. split; [vm_compute; reflexivity | ]. split; [reflexivity | ].
  destruct (C9_sources_list_every_page healthyWorld (requestOf (Some 5) false) _ eq_refl)
    as [m [pages [_ [_ [_ [_ [_ [_ H]]]]]]]].
  exact H.
Defined.

Lemma C10_requestedPages_is_raw_witness :
  (exists payload,
     body (snd (POST healthyWorld (requestOf (Some 25) true))) = PayloadBody payload /\
     requestedPages (crawlInfo payload) = 25) /\
  (exists payload,
     body (snd (POST healthyWorld (requestOf (Some 0) true))) = PayloadBody payload /\
     requestedPages (crawlInfo payload) = 0) /\
  validatePagesToCrawl 25 = 10 /\ validatePagesToCrawl 0 = 1.
Proof.
  split; [ | split; [ | split; reflexivity]].
  - eexists. split; [vm_compute; reflexivity | ].
    exact (proj1 (C10_requestedPages_is_raw healthyWorld (requestOf (Some 25) true) _ eq_refl)).
  - eexists. split; [vm_compute; reflexivity | ].
    exact (proj1 (C10_requestedPages_is_raw healthyWorld (requestOf (Some 0) true) _ eq_refl)).
Defined.

(** C4 as stated fails: the search finds [https://example.org/a], which
    passes the filter, and the scraper answers with a document whose
    [sourceURL] is [https://twitter.com/x]; the response lists it. *)
Lemma C4_sources_counterexample :
  ~ sources_denylist_free otherSourceWorld (requestOf (Some 3) true).
Proof.
  intros H.
  specialize (H (payloadOf 3 true
                   [{| url := "https://twitter.com/x"; title := "x"; content := "A post" |}]
                   "An answer." [gpt4oMini]) eq_refl).
  inversion H as [| s l Hs _]. discriminate Hs.
Qed.

Lemma C4_filtering_monotonic_witness :
  scraper_echoes echoWorld /\
  sources_denylist_free echoWorld (requestOf (Some 5) true) /\
  body (snd (POST echoWorld (requestOf (Some 5) true))) =
    PayloadBody (payloadOf 5 true
                   [{| url := "https://example.org/a"; title := "a";
                       content := "Body of the page." |};
                    {| url := "https://news.site/b/"; title := "Title not available";
                       content := "Body of the page." |}]
                   "An answer." [gpt4oMini]).
Proof.
  assert (He : scraper_echoes echoWorld).
  { intros urls sd docs doc u Hb Hd Hin Hu.
    cbn in Hb. injection Hb as <-. cbn in Hd. injection Hd as <-.
    apply in_map_iff in Hin. destruct Hin as [u' [<- Hin]].
    cbn in Hu. injection Hu as <-. exact Hin. }
  split; [exact He | ]. split; [ | reflexivity].
  destruct (C4_filtering_monotonic echoWorld (requestOf (Some 5) true) threeResults 5)
    as [_ [_ [_ [_ [_ H]]]]].
  exact (H He).
Defined.

(** ** Remarks on the edges of the scrape stage *)

(** An empty [data] array is not "no data" for the route: the stage then
    returns no page at all, and no sentinel. *)
Lemma empty_data_gives_no_page :
  mapAndScrapeUrls
    (stubWorld threeResults (Returned {| success := true; data := Some [] |}) okCompletion)
    question 3 =
  ([SearchCall question; ScrapeCall ["https://example.org/a"; "https://news.site/b/"]],
   Returned []).
Proof. reflexivity. Qed.

(** The sentinel pages themselves match no unsupported domain. *)
Lemma sentinels_denylist_free :
  denylist_free (url noValidUrlsPage) /\ denylist_free (url scrapingFailedPage).
Proof. split; reflexivity. Qed.

(** The match against the unsupported domains ignores case and position. *)
Lemma filter_ignores_case :
  filterUrls ["https://example.org/a"; "https://TWITTER.com/x"; "https://m.Facebook.com/p";
              "https://news.site/b/"] =
  ["https://example.org/a"; "https://news.site/b/"].
Proof. reflexivity. Qed.

(* ===================================================================== *)
(** * Further properties of the route *)
(* ===================================================================== *)

(** ** Strings *)

Lemma append_assoc (a b c : string) : (a ++ b) ++ c = a ++ b ++ c.
Proof. induction a as [| x a IH]; simpl; [reflexivity | rewrite IH; reflexivity]. Qed.

Lemma append_nil_r (a : string) : a ++ "" = a.
Proof. induction a as [| x a IH]; simpl; [reflexivity | rewrite IH; reflexivity]. Qed.

Lemma startsWith_spec (s p : string) :
  JS.startsWith s p = true <-> exists b, s = p ++ b.
Proof.
  revert s. induction p as [| a p IH]; intros s.
  - destruct s; simpl; split; eauto.
  - destruct s as [| b s]; simpl.
    + split; [discriminate | intros [t H]; discriminate H].
    + rewrite andb_true_iff, Ascii.eqb_eq, IH. split.
      * intros [-> [t ->]]. exists t. reflexivity.
      * intros [t H]. injection H as -> ->. split; [reflexivity | exists t; reflexivity].
Qed.

(** [includes] finds exactly the substrings. *)
Lemma includes_spec (s p : string) :
  JS.includes s p = true <-> exists a b, s = a ++ p ++ b.
Proof.
  induction s as [| c s IH].
  - cbn [JS.includes]. rewrite startsWith_spec. split.
    + intros [b H]. exists "", b. exact H.
    + intros [a [b H]]. destruct a; [exists b; exact H | discriminate H].
  - cbn [JS.includes]. rewrite orb_true_iff, startsWith_spec, IH. split.
    + intros [[b H] | [a [b H]]].
      * exists "", b. exact H.
      * exists (String c a), b. rewrite H. reflexivity.
    + intros [[| x a] [b H]].
      * left. exists b. exact H.
      * right. injection H as -> ->. exists a, b. reflexivity.
Qed.

Lemma includes_app (a p b : string) : JS.includes (a ++ p ++ b) p = true.
Proof. apply includes_spec. exists a, b. reflexivity. Qed.

Lemma lower_ascii_idem (c : ascii) : JS.lower_ascii (JS.lower_ascii c) = JS.lower_ascii c.
Proof. destruct c as [[] [] [] [] [] [] [] []]; reflexivity. Qed.

Lemma toLowerCase_idem (s : string) : JS.toLowerCase (JS.toLowerCase s) = JS.toLowerCase s.
Proof.
  induction s as [| c s IH]; simpl; [reflexivity | ].
  rewrite lower_ascii_idem, IH. reflexivity.
Qed.

Lemma toLowerCase_app (a b : string) :
  JS.toLowerCase (a ++ b) = JS.toLowerCase a ++ JS.toLowerCase b.
Proof. induction a as [| c a IH]; simpl; [reflexivity | rewrite IH; reflexivity]. Qed.

Lemma unsupportedDomains_lower :
  Forall (fun d => JS.toLowerCase d = d) unsupportedDomains.
Proof. repeat constructor. Qed.

Lemma isUnsupported_spec (u : string) :
  isUnsupported u = true <->
  exists d a b, In d unsupportedDomains /\ JS.toLowerCase u = a ++ d ++ b.
Proof.
  unfold isUnsupported, JS.some. rewrite existsb_exists. split.
  - intros [d [Hd H]]. apply includes_spec in H. destruct H as [a [b H]].
    exists d, a, b. split; assumption.
  - intros [d [a [b [Hd H]]]]. exists d. split; [exact Hd | ].
    apply includes_spec. exists a, b. exact H.
Qed.

(** X1.  A URL is turned down exactly when its lower-cased form contains
    one of the unsupported domains, at any position: whatever stands
    before and after a domain, and whatever the case of the letters, the
    URL is turned down; the test gives the same answer on a URL and on
    its lower-cased form. *)
Theorem X1_isUnsupported_substring (u : string) :
  (isUnsupported u = true <->
   exists d a b, In d unsupportedDomains /\ JS.toLowerCase u = a ++ d ++ b) /\
  isUnsupported (JS.toLowerCase u) = isUnsupported u /\
  (forall d a b, In d unsupportedDomains -> JS.toLowerCase u = JS.toLowerCase (a ++ d ++ b) ->
                 isUnsupported u = true).
Proof.
  split; [apply isUnsupported_spec | ]. split.
  - unfold isUnsupported. cbv zeta. rewrite toLowerCase_idem. reflexivity.
  - intros d a b Hd H. apply isUnsupported_spec.
    exists d, (JS.toLowerCase a), (JS.toLowerCase b). split; [exact Hd | ].
    rewrite H, !toLowerCase_app.
    pose proof unsupportedDomains_lower as Hl. rewrite Forall_forall in Hl.
    rewrite (Hl d Hd). reflexivity.
Qed.

Lemma X1_isUnsupported_substring_witness :
  isUnsupported "https://www.NetFlix.COM/title/1" = true /\
  isUnsupported "https://m.YouTube.com/watch?v=1" = true.
Proof.
  split.
  - apply (proj2 (proj2 (X1_isUnsupported_substring "https://www.NetFlix.COM/title/1"))
             "x.com" "https://www.netfli" "/title/1").
    + simpl. tauto.
    + reflexivity.
  - apply (proj1 (X1_isUnsupported_substring "https://m.YouTube.com/watch?v=1")).
    exists "youtube.com", "https://m.", "/watch?v=1". split; [simpl; tauto | reflexivity].
Defined.

(** X2.  The filter keeps exactly the URLs that are not turned down, in
    their order: it distributes over concatenation, filtering twice is
    filtering once, and a list without unsupported URLs is left as it
    is. *)
Theorem X2_filterUrls_keeps_supported (l1 l2 : list string) (u : string) :
  (In u (filterUrls l1) <-> In u l1 /\ isUnsupported u = false) /\
  filterUrls (l1 ++ l2)%list = (filterUrls l1 ++ filterUrls l2)%list /\
  filterUrls (filterUrls l1) = filterUrls l1 /\
  (Forall denylist_free l1 -> filterUrls l1 = l1).
Proof.
  assert (Hfix : forall l, Forall denylist_free l -> filterUrls l = l).
  { induction 1 as [| x l Hx _ IH]; [reflexivity | ].
    unfold filterUrls in *. simpl. unfold denylist_free in Hx. rewrite Hx. simpl.
    rewrite IH. reflexivity. }
  split; [ | split; [ | split]].
  - unfold filterUrls. rewrite filter_In, negb_true_iff. reflexivity.
  - apply filter_app.
  - apply Hfix. apply filterUrls_denylist_free.
  - apply Hfix.
Qed.

Lemma X2_filterUrls_keeps_supported_witness :
  filterUrls ["https://example.org/a"; "https://news.site/b/"] =
    ["https://example.org/a"; "https://news.site/b/"] /\
  In "https://news.site/b/" (filterUrls ["https://x.com/p"; "https://news.site/b/"]).
Proof.
  destruct (X2_filterUrls_keeps_supported
              ["https://example.org/a"; "https://news.site/b/"] []
              "https://news.site/b/") as [_ [_ [_ H]]].
  destruct (X2_filterUrls_keeps_supported
              ["https://x.com/p"; "https://news.site/b/"] []
              "https://news.site/b/") as [H' _].
  split.
  - apply H. repeat constructor.
  - apply H'. split; [simpl; tauto | reflexivity].
Defined.

(** ** Titles *)

Lemma split_nonempty (sep : ascii) (s : string) : JS.split sep s <> [].
Proof.
  destruct s as [| c s]; simpl; [discriminate | ].
  destruct (Ascii.eqb c sep); [discriminate | ].
  destruct (JS.split sep s); discriminate.
Qed.

Lemma concat_cons_char (sep : string) (c : ascii) (piece : string) (pieces : list string) :
  String.concat sep (String c piece :: pieces) = String c (String.concat sep (piece :: pieces)).
Proof. destruct pieces; reflexivity. Qed.

Lemma concat_cons2 (sep x y : string) (l : list string) :
  String.concat sep (x :: y :: l) = x ++ sep ++ String.concat sep (y :: l).
Proof. reflexivity. Qed.

(** Joining the pieces of a split with the separator gives the string back. *)
Lemma split_join (sep : ascii) (s : string) :
  JS.join (String sep "") (JS.split sep s) = s.
Proof.
  unfold JS.join. induction s as [| c s IH]; [reflexivity | ].
  cbn [JS.split]. destruct (Ascii.eqb_spec c sep) as [-> | Hne].
  - pose proof (split_nonempty sep s) as Hn.
    destruct (JS.split sep s) as [| piece pieces]; [contradiction | ].
    rewrite concat_cons2, IH. reflexivity.
  - pose proof (split_nonempty sep s) as Hn.
    destruct (JS.split sep s) as [| piece pieces]; [contradiction | ].
    rewrite concat_cons_char, IH. reflexivity.
Qed.

Lemma includes_char_cons (sep c : ascii) (s : string) :
  JS.includes (String c s) (String sep "") = (Ascii.eqb sep c || JS.includes s (String sep ""))%bool.
Proof.
  cbn [JS.includes JS.startsWith]. destruct s; rewrite andb_true_r; reflexivity.
Qed.

(** No piece of a split contains the separator. *)
Lemma split_pieces_free (sep : ascii) (s : string) :
  Forall (fun piece => JS.includes piece (String sep "") = false) (JS.split sep s).
Proof.
  induction s as [| c s IH]; [repeat constructor | ].
  cbn [JS.split]. destruct (Ascii.eqb_spec c sep) as [-> | Hne].
  - constructor; [reflexivity | exact IH].
  - destruct (JS.split sep s) as [| piece pieces]; [repeat constructor | ].
    + rewrite includes_char_cons. apply orb_false_iff. split; [ | reflexivity].
      apply Ascii.eqb_neq. congruence.
    + inversion IH as [| ? ? Hp Hr]; subst. constructor; [ | exact Hr].
      rewrite includes_char_cons. apply orb_false_iff. split; [ | exact Hp].
      apply Ascii.eqb_neq. congruence.
Qed.

Lemma split_free (sep : ascii) (s : string) :
  JS.includes s (String sep "") = false -> JS.split sep s = [s].
Proof.
  induction s as [| c s IH]; [reflexivity | ].
  rewrite includes_char_cons, orb_false_iff. intros [Hc Hs].
  cbn [JS.split]. rewrite Ascii.eqb_sym, Hc, (IH Hs). reflexivity.
Qed.

Lemma split_app_sep (sep : ascii) (a b : string) :
  JS.split sep (a ++ String sep b) = (JS.split sep a ++ JS.split sep b)%list.
Proof.
  induction a as [| c a IH].
  - cbn [append JS.split]. rewrite Ascii.eqb_refl. reflexivity.
  - cbn [append JS.split]. destruct (Ascii.eqb c sep).
    + rewrite IH. reflexivity.
    + rewrite IH. pose proof (split_nonempty sep a) as Hn.
      destruct (JS.split sep a) as [| piece pieces]; [contradiction | reflexivity].
Qed.

Lemma pop_In {A : Type} (l : list A) (x : A) : JS.pop l = Some x -> In x l.
Proof.
  unfold JS.pop. destruct (rev l) as [| y r] eqn:E; [discriminate | ].
  intros H. injection H as ->. apply in_rev. rewrite E. left. reflexivity.
Qed.

Lemma pop_snoc {A : Type} (l : list A) (x : A) : JS.pop (l ++ [x])%list = Some x.
Proof. unfold JS.pop. rewrite rev_unit. reflexivity. Qed.

Lemma doc_title_nonempty (doc : FirecrawlDocument) :
  JS.truthy (doc_title doc) = true.
Proof.
  unfold doc_title, JS.or_default. destruct (doc_sourceURL doc) as [u | ]; [ | reflexivity].
  destruct (JS.pop (JS.split "/" u)) as [t | ]; [ | reflexivity].
  destruct (JS.truthy t) eqn:E; [exact E | reflexivity].
Qed.

Lemma doc_title_of (u : string) (md : option string) :
  doc_title (docOf (Some u) md) =
  JS.or_default (JS.pop (JS.split "/" u)) "Title not available".
Proof. reflexivity. Qed.

(** X3.  The title of a scraped page is never empty and never contains
    [/].  For a source URL [a/seg] whose last segment [seg] has no [/] it
    is [seg], and ["Title not available"] when [seg] is empty (the URL
    ends with [/]); a document without a source URL gets ["Title not
    available"] too. *)
Theorem X3_title_is_last_segment (doc : FirecrawlDocument) (a seg : string)
    (md : option string) :
  JS.truthy (doc_title doc) = true /\
  slash_free (doc_title doc) /\
  (doc_sourceURL doc = None -> doc_title doc = "Title not available") /\
  (slash_free seg ->
   doc_title (docOf (Some (a ++ "/" ++ seg)) md) =
   if JS.truthy seg then seg else "Title not available").
Proof.
  split; [ | split; [ | split]].
  - unfold doc_title, JS.or_default. destruct (doc_sourceURL doc) as [u | ]; [ | reflexivity].
    destruct (JS.pop (JS.split "/" u)) as [t | ]; [ | reflexivity].
    destruct (JS.truthy t) eqn:E; [exact E | reflexivity].
  - unfold doc_title, JS.or_default, slash_free.
    destruct (doc_sourceURL doc) as [u | ]; [ | reflexivity].
    destruct (JS.pop (JS.split "/" u)) as [t | ] eqn:E; [ | reflexivity].
    destruct (JS.truthy t); [ | reflexivity].
    apply pop_In in E. pose proof (split_pieces_free "/" u) as Hf.
    rewrite Forall_forall in Hf. apply (Hf t E).
  - intros H. unfold doc_title. rewrite H. reflexivity.
  - intros Hs. rewrite doc_title_of.
    change (a ++ "/" ++ seg) with (a ++ String "/" seg).
    rewrite split_app_sep, (split_free "/" seg Hs), pop_snoc. reflexivity.
Qed.

Lemma X3_title_is_last_segment_witness :
  doc_title (docOf (Some "https://example.org/blog/canvas-release") (Some "text")) =
    "canvas-release" /\
  doc_title (docOf (Some "https://example.org/blog/") (Some "text")) =
    "Title not available" /\
  doc_title (docOf None (Some "text")) = "Title not available".
Proof.
  destruct (X3_title_is_last_segment (docOf None (Some "text"))
              "https://example.org/blog" "canvas-release" (Some "text"))
    as [_ [_ [H0 H1]]].
  destruct (X3_title_is_last_segment (docOf None (Some "text"))
              "https://example.org/blog" "" (Some "text"))
    as [_ [_ [_ H2]]].
  split; [exact (H1 eq_refl) | ]. split; [exact (H2 eq_refl) | exact (H0 eq_refl)].
Defined.

(** ** Search and scrape *)

Lemma serperSearch_run (W : World) (m : string) (n : Z) :
  serperSearch W m n =
  ([SearchCall m],
   match serper_fetch W m with
   | Returned r =>
       if ok r then Returned (map to_SearchResult (JS.slice0 (organic r) n))
       else Thrown ("Serper API error: " ++ JS.show_N (status r))
   | Thrown e => Thrown e
   end).
Proof.
  unfold serperSearch, await. rewrite bind_run. simpl.
  destruct (serper_fetch W m) as [r | e]; [ | reflexivity].
  destruct (ok r); reflexivity.
Qed.

(** The response of a request whose scrape stage throws. *)
Lemma POST_scrape_thrown (W : World) (request : RequestBody) (m e : string) :
  message request = Some m -> JS.truthy m = true ->
  snd (mapAndScrapeUrls W m (validatePagesToCrawl (requested_pagesToCrawl request)))
    = Thrown e ->
  POST W request =
  (fst (mapAndScrapeUrls W m (validatePagesToCrawl (requested_pagesToCrawl request))),
   {| http_status := 500; body := ErrorBody e |}).
Proof.
  intros Hm Ht Hs. unfold POST.
  rewrite (handle_answer W request m Hm Ht), answerQuery_run. cbv zeta.
  rewrite Hs. reflexivity.
Qed.

(** X4.  A search that fails ends the request at once: a response that
    is not [ok] gives status 500 with ["Serper API error: <status>"], a
    rejected fetch gives status 500 with the error's own message, and in
    both cases the search call is the only call made. *)
Theorem X4_search_failure (W : World) (request : RequestBody) (m : string) :
  message request = Some m -> JS.truthy m = true ->
  (forall r, serper_fetch W m = Returned r -> ok r = false ->
             POST W request =
             ([SearchCall m],
              {| http_status := 500;
                 body := ErrorBody ("Serper API error: " ++ JS.show_N (status r)) |})) /\
  (forall e, serper_fetch W m = Thrown e ->
             POST W request =
             ([SearchCall m], {| http_status := 500; body := ErrorBody e |})).
Proof.
  intros Hm Ht. split.
  - intros r Hr Hok.
    rewrite (POST_scrape_thrown W request m
               ("Serper API error: " ++ JS.show_N (status r)) Hm Ht);
      rewrite mapAndScrapeUrls_run, serperSearch_run, Hr, Hok; reflexivity.
  - intros e Hr.
    rewrite (POST_scrape_thrown W request m e Hm Ht);
      rewrite mapAndScrapeUrls_run, serperSearch_run, Hr; reflexivity.
Qed.

Lemma X4_search_failure_witness :
  POST (searchWorld (Returned {| ok := false; status := 403%N; organic := [] |}))
       (requestOf (Some 3) false) =
    ([SearchCall question],
     {| http_status := 500; body := ErrorBody "Serper API error: 403" |}) /\
  POST (searchWorld (Thrown "fetch failed")) (requestOf (Some 3) false) =
    ([SearchCall question], {| http_status := 500; body := ErrorBody "fetch failed" |}).
Proof.
  split.
  - exact (proj1 (X4_search_failure
                    (searchWorld (Returned {| ok := false; status := 403%N; organic := [] |}))
                    (requestOf (Some 3) false) question eq_refl eq_refl)
                 {| ok := false; status := 403%N; organic := [] |} eq_refl eq_refl).
  - exact (proj2 (X4_search_failure (searchWorld (Thrown "fetch failed"))
                    (requestOf (Some 3) false) question eq_refl eq_refl)
                 "fetch failed" eq_refl).
Defined.

Lemma to_SearchResult_title (o : OrganicResult) :
  JS.truthy (sr_title (to_SearchResult o)) = true.
Proof.
  unfold to_SearchResult, JS.or_default. cbn [sr_title].
  destruct (o_title o) as [t | ]; [ | reflexivity].
  destruct (JS.truthy t) eqn:E; [exact E | reflexivity].
Qed.

(** X5.  A search that succeeds returns the first [n] organic results in
    the service's order (all of them when there are fewer), one record
    for each with its link untouched and a title that is never empty
    (["No Title"] stands in for a missing or empty one). *)
Theorem X5_search_keeps_first_results (W : World) (m : string) (n : Z)
    (r : SerperResponse) :
  serper_fetch W m = Returned r -> ok r = true -> 0 <= n ->
  exists results,
    serperSearch W m n = ([SearchCall m], Returned results) /\
    map link results = firstn (Z.to_nat n) (map o_link (organic r)) /\
    length results = Nat.min (Z.to_nat n) (length (organic r)) /\
    Forall (fun x => JS.truthy (sr_title x) = true) results /\
    map sr_title results =
      map (fun o => JS.or_default (o_title o) "No Title") (firstn (Z.to_nat n) (organic r)).
Proof.
  intros Hr Hok Hn.
  exists (map to_SearchResult (JS.slice0 (organic r) n)).
  rewrite serperSearch_run, Hr, Hok.
  assert (Hs : JS.slice0 (organic r) n = firstn (Z.to_nat n) (organic r)).
  { unfold JS.slice0. destruct (Z.ltb_spec n 0); [lia | reflexivity]. }
  rewrite Hs. split; [reflexivity | ]. split; [ | split; [ | split]].
  - rewrite map_map. cbn [to_SearchResult link]. symmetry. apply (firstn_map o_link).
  - rewrite length_map. apply length_firstn.
  - apply Forall_map. apply Forall_forall. intros o _. apply to_SearchResult_title.
  - rewrite map_map. reflexivity.
Qed.

Lemma X5_search_keeps_first_results_witness :
  exists results,
    serperSearch healthyWorld question 2 = ([SearchCall question], Returned results) /\
    map link results = ["https://example.org/a"; "https://Twitter.com/x"] /\
    length results = 2%nat.
Proof.
  destruct (X5_search_keeps_first_results healthyWorld question 2
              {| ok := true; status := 200%N; organic := threeResults |}
              eq_refl eq_refl ltac:(lia)) as [results [H1 [H2 [H3 _]]]].
  exists results. split; [exact H1 | ]. split; [exact H2 | exact H3].
Defined.

(** X6.  A scraper that throws ends the request: status 500 with the
    error's own message, after the search call and the scrape call and
    nothing else; no sentinel page stands in for a thrown error. *)
Theorem X6_scrape_rejection (W : World) (request : RequestBody) (m e : string)
    (results : list SearchResult) :
  message request = Some m -> JS.truthy m = true ->
  snd (serperSearch W m (validatePagesToCrawl (requested_pagesToCrawl request)))
    = Returned results ->
  filterUrls (map link results) <> [] ->
  batchScrapeUrls W (filterUrls (map link results)) = Thrown e ->
  POST W request =
  ([SearchCall m; ScrapeCall (filterUrls (map link results))],
   {| http_status := 500; body := ErrorBody e |}).
Proof.
  intros Hm Ht Hs Hne Hb.
  assert (Hrun : mapAndScrapeUrls W m (validatePagesToCrawl (requested_pagesToCrawl request))
                 = ([SearchCall m; ScrapeCall (filterUrls (map link results))], Thrown e)).
  { rewrite mapAndScrapeUrls_run, Hs.
    destruct (filterUrls (map link results)) as [| u us]; [contradiction | ].
    rewrite Hb. reflexivity. }
  rewrite (POST_scrape_thrown W request m e Hm Ht); rewrite Hrun; reflexivity.
Qed.

Lemma X6_scrape_rejection_witness :
  POST (stubWorld threeResults (Thrown "Request failed with status code 402") okCompletion)
       (requestOf (Some 3) true) =
  ([SearchCall question; ScrapeCall ["https://example.org/a"; "https://news.site/b/"]],
   {| http_status := 500; body := ErrorBody "Request failed with status code 402" |}).
Proof.
  exact (X6_scrape_rejection
           (stubWorld threeResults (Thrown "Request failed with status code 402") okCompletion)
           (requestOf (Some 3) true) question "Request failed with status code 402"
           (map to_SearchResult threeResults)
           eq_refl eq_refl eq_refl ltac:(discriminate) eq_refl).
Defined.

Lemma to_ScrapedPage_usable (doc : FirecrawlDocument) :
  doc_usable doc = true ->
  JS.truthy (url (to_ScrapedPage doc)) = true /\
  JS.truthy (content (to_ScrapedPage doc)) = true /\
  doc_sourceURL doc = Some (url (to_ScrapedPage doc)) /\
  markdown doc = Some (content (to_ScrapedPage doc)).
Proof.
  unfold doc_usable, to_ScrapedPage, JS.truthy_opt, JS.or_default. cbn [url content].
  destruct (doc_sourceURL doc) as [u | ]; [ | discriminate].
  destruct (markdown doc) as [md | ]; [ | rewrite andb_false_r; discriminate].
  destruct (JS.truthy u) eqn:Eu; [ | discriminate].
  destruct (JS.truthy md) eqn:Em; [ | discriminate].
  intros _. repeat split; assumption.
Qed.

(** X7.  When the scraper succeeds, the pages are the documents that have
    both a non-empty source URL and a non-empty markdown body, in the
    scraper's order; the others are dropped without a trace.  Every page
    has a non-empty url, title and content: its url is the document's
    source URL and its content the document's markdown, so the stand-ins
    ["URL not available"] and ["Content not available"] of the mapping
    are never used. *)
Theorem X7_scraped_pages_complete (W : World) (m : string) (n : Z)
    (results : list SearchResult) (scrapedData : ScrapeResponse)
    (docs : list FirecrawlDocument) :
  snd (serperSearch W m n) = Returned results ->
  filterUrls (map link results) <> [] ->
  batchScrapeUrls W (filterUrls (map link results)) = Returned scrapedData ->
  success scrapedData = true -> data scrapedData = Some docs ->
  exists pages,
    snd (mapAndScrapeUrls W m n) = Returned pages /\
    map Some (map url pages) = map doc_sourceURL (filter doc_usable docs) /\
    map Some (map content pages) = map markdown (filter doc_usable docs) /\
    (length pages <= length docs)%nat /\
    Forall (fun page => JS.truthy (url page) = true /\
                        JS.truthy (title page) = true /\
                        JS.truthy (content page) = true) pages /\
    (forall doc, In doc docs ->
                 JS.truthy_opt (doc_sourceURL doc) = false \/
                 JS.truthy_opt (markdown doc) = false ->
                 ~ In doc (filter doc_usable docs)).
Proof.
  intros Hs Hne Hb Hok Hd.
  exists (map to_ScrapedPage (filter doc_usable docs)).
  split; [ | split; [ | split; [ | split; [ | split]]]].
  - rewrite mapAndScrapeUrls_run, Hs.
    destruct (filterUrls (map link results)) as [| u us]; [contradiction | ].
    rewrite Hb. cbn [snd]. rewrite Hok, Hd. reflexivity.
  - rewrite !map_map. apply map_ext_in. intros doc Hin.
    apply filter_In in Hin. destruct Hin as [_ Hu].
    symmetry. apply (to_ScrapedPage_usable doc Hu).
  - rewrite !map_map. apply map_ext_in. intros doc Hin.
    apply filter_In in Hin. destruct Hin as [_ Hu].
    symmetry. apply (to_ScrapedPage_usable doc Hu).
  - rewrite length_map. apply filter_length_le.
  - apply Forall_map. apply Forall_forall. intros doc Hin.
    apply filter_In in Hin. destruct Hin as [_ Hu].
    destruct (to_ScrapedPage_usable doc Hu) as [H1 [H2 _]].
    split; [exact H1 | ]. split; [ | exact H2].
    apply doc_title_nonempty.
  - intros doc _ Hbad Hin. apply filter_In in Hin. destruct Hin as [_ Hu].
    unfold doc_usable in Hu. apply andb_true_iff in Hu.
    destruct Hu as [H1 H2], Hbad as [H | H]; congruence.
Qed.

Lemma X7_scraped_pages_complete_witness :
  exists pages,
    snd (mapAndScrapeUrls partialWorld question 3) = Returned pages /\
    map Some (map url pages) = [Some "https://example.org/a"] /\
    (length pages <= 4)%nat.
Proof.
  destruct (X7_scraped_pages_complete partialWorld question 3
              (map to_SearchResult threeResults)
              {| success := true;
                 data := Some [scrapedDoc "https://example.org/a" "AAA";
                               docOf (Some "https://news.site/b/") None;
                               docOf (Some "") (Some "text");
                               docOf None (Some "text")] |}
              [scrapedDoc "https://example.org/a" "AAA";
               docOf (Some "https://news.site/b/") None;
               docOf (Some "") (Some "text");
               docOf None (Some "text")]
              eq_refl ltac:(discriminate) eq_refl eq_refl eq_refl)
    as [pages [H1 [H2 [_ [H3 _]]]]].
  exists pages. split; [exact H1 | ]. split; [exact H2 | exact H3].
Defined.

(** ** The response *)

Lemma POST_rejected (W : World) (request : RequestBody) :
  JS.truthy_opt (message request) = false ->
  POST W request = ([], {| http_status := 400; body := ErrorBody "Message is required" |}).
Proof. intros H. unfold POST. rewrite (handle_rejected W request H). reflexivity. Qed.

Lemma POST_answer (W : World) (request : RequestBody) (m : string) :
  message request = Some m -> JS.truthy m = true ->
  POST W request =
  (fst (answerQuery W m (requested_pagesToCrawl request) (requested_skipEmbeddings request)),
   match snd (answerQuery W m (requested_pagesToCrawl request)
                          (requested_skipEmbeddings request)) with
   | Returned response => response
   | Thrown msg => {| http_status := 500; body := ErrorBody msg |}
   end).
Proof.
  intros Hm Ht. unfold POST. rewrite (handle_answer W request m Hm Ht).
  destruct (answerQuery W m _ _) as [t [r | e]]; reflexivity.
Qed.

(** X8.  The count of pages acts on a request only through its clamped
    value: two requests that differ in [pagesToCrawl] alone, with the
    same clamped count (any two counts below 1, or any two above 10),
    make the same calls and get the same status and the same body, up to
    the [requestedPages] that is echoed back. *)
Theorem X8_only_the_clamped_count_matters (W : World) (msg : option string)
    (skip : option bool) (p q : Z) :
  validatePagesToCrawl p = validatePagesToCrawl q ->
  let rp := POST W {| message := msg; pagesToCrawl := Some p; skipEmbeddings := skip |} in
  let rq := POST W {| message := msg; pagesToCrawl := Some q; skipEmbeddings := skip |} in
  fst rp = fst rq /\
  http_status (snd rp) = http_status (snd rq) /\
  forget_requestedPages (body (snd rp)) = forget_requestedPages (body (snd rq)).
Proof.
  intros H. cbv zeta.
  destruct (JS.truthy_opt msg) eqn:E.
  - destruct msg as [m | ]; [ | discriminate]. cbn [JS.truthy_opt] in E.
    rewrite (POST_answer W {| message := Some m; pagesToCrawl := Some p;
                              skipEmbeddings := skip |} m eq_refl E),
            (POST_answer W {| message := Some m; pagesToCrawl := Some q;
                              skipEmbeddings := skip |} m eq_refl E).
    rewrite !answerQuery_run. cbv zeta. cbn [requested_pagesToCrawl pagesToCrawl].
    rewrite <- H.
    destruct (snd (mapAndScrapeUrls W m (validatePagesToCrawl p))) as [pages | e];
      [ | repeat split].
    destruct (snd (buildContext W pages m _)) as [context | e]; [ | repeat split].
    cbn [fst snd].
    destruct (notDiamond_create W (systemMessage W context) m) as [[| d | c ps] | e];
      repeat split.
  - rewrite !POST_rejected by exact E. repeat split.
Qed.

Lemma X8_only_the_clamped_count_matters_witness :
  fst (POST healthyWorld (requestOf (Some 10) true)) =
    fst (POST healthyWorld (requestOf (Some 25) true)) /\
  forget_requestedPages (body (snd (POST healthyWorld (requestOf (Some 10) true)))) =
    forget_requestedPages (body (snd (POST healthyWorld (requestOf (Some 25) true)))).
Proof.
  destruct (X8_only_the_clamped_count_matters healthyWorld (Some question) (Some true)
              10 25 eq_refl) as [H1 [_ H2]].
  split; [exact H1 | exact H2].
Defined.

Lemma nth_error_0 {A : Type} (l : list A) : nth_error l 0 = hd_error l.
Proof. destruct l; reflexivity. Qed.

(** X9.  In a response that carries a payload the status is 200,
    [embeddingsUsed] is the negation of the request's [skipEmbeddings]
    ([true] when the request leaves it out), [answer] is the content of
    the completion the router returned for this request, and
    [selectedModel] is the first provider of that completion, absent
    when the router names none. *)
Theorem X9_payload_reports_the_completion (W : World) (request : RequestBody)
    (payload : ResponsePayload) :
  body (snd (POST W request)) = PayloadBody payload ->
  http_status (snd (POST W request)) = 200 /\
  embeddingsUsed (crawlInfo payload) =
    match skipEmbeddings request with
    | Some b => negb b
    | None => true
    end /\
  exists m context c ps,
    message request = Some m /\
    In (RouteCall (systemMessage W context) m) (fst (POST W request)) /\
    notDiamond_create W (systemMessage W context) m = Returned (Completion c ps) /\
    answer payload = Some c /\
    selectedModel payload = hd_error ps.
Proof.
  intros H. apply POST_success_inv in H.
  destruct H as [m [pages [context [c [ps [Hm [Ht [Hs [Hb [Hc ->]]]]]]]]]].
  rewrite (POST_routed W request m pages context Hm Ht Hs Hb), Hc.
  cbn [fst snd http_status payloadOf crawlInfo embeddingsUsed answer selectedModel].
  split; [reflexivity | ]. split.
  - unfold requested_skipEmbeddings. destruct (skipEmbeddings request); reflexivity.
  - exists m, context, c, ps. split; [exact Hm | ]. split.
    + rewrite !in_app_iff. right. right. left. reflexivity.
    + split; [exact Hc | ]. split; [reflexivity | apply nth_error_0].
Qed.

Lemma X9_payload_reports_the_completion_witness :
  exists payload,
    body (snd (POST healthyWorld
                 {| message := Some question; pagesToCrawl := None;
                    skipEmbeddings := None |})) = PayloadBody payload /\
    embeddingsUsed (crawlInfo payload) = true /\
    selectedModel payload = Some gpt4oMini.
Proof.
  eexists. split; [vm_compute; reflexivity | ]. split.
  - exact (proj1 (proj2 (X9_payload_reports_the_completion healthyWorld
                           {| message := Some question; pagesToCrawl := None;
                              skipEmbeddings := None |} _ eq_refl))).
  - reflexivity.
Defined.

(** X10.  The status of a response is 400, 500 or 200: 400 exactly when
    the message is missing or empty, 200 exactly when the body is a
    payload; a 400 or 500 response carries an error message and no
    payload. *)
Theorem X10_status_tells_the_outcome (W : World) (request : RequestBody) :
  let response := snd (POST W request) in
  (http_status response = 400 \/ http_status response = 500 \/
   http_status response = 200) /\
  (http_status response = 400 <-> JS.truthy_opt (message request) = false) /\
  (http_status response = 200 <-> exists payload, body response = PayloadBody payload) /\
  (http_status response <> 200 <-> exists e, body response = ErrorBody e).
Proof.
  cbv zeta. destruct (JS.truthy_opt (message request)) eqn:E.
  - assert (Hm : exists m, message request = Some m /\ JS.truthy m = true).
    { unfold JS.truthy_opt in E. destruct (message request) as [m | ]; [ | discriminate].
      exists m. split; [reflexivity | exact E]. }
    destruct Hm as [m [Hm Ht]]. rewrite (POST_answer W request m Hm Ht), answerQuery_run.
    cbv zeta.
    destruct (snd (mapAndScrapeUrls W m _)) as [pages | e]; cbn [snd].
    + destruct (snd (buildContext W pages m _)) as [context | e]; cbn [snd].
      * destruct (notDiamond_create W (systemMessage W context) m) as [[| d | c ps] | e];
          cbn [http_status body];
          (split; [auto | ]); (split; [split; intros; discriminate | ]);
          (split; [split; [try discriminate; eauto | try reflexivity;
                                                     intros [? ?]; discriminate]
                  | split; [try (intros H; contradiction); eauto
                           | try discriminate; intros [? ?]; discriminate]]).
      * cbn [http_status body]. split; [auto | ].
        split; [split; intros; discriminate | ].
        split; [split; [discriminate | intros [? ?]; discriminate]
               | split; [eauto | discriminate]].
    + cbn [http_status body]. split; [auto | ].
      split; [split; intros; discriminate | ].
      split; [split; [discriminate | intros [? ?]; discriminate]
             | split; [eauto | discriminate]].
  - rewrite (POST_rejected W request E). cbn [snd http_status body].
    split; [auto | ]. split; [split; reflexivity | ].
    split; [split; [discriminate | intros [? ?]; discriminate]
           | split; [eauto | discriminate]].
Qed.

Lemma X10_status_tells_the_outcome_witness :
  http_status (snd (POST healthyWorld
                      {| message := Some ""; pagesToCrawl := None;
                         skipEmbeddings := None |})) = 400 /\
  exists payload, body (snd (POST healthyWorld (requestOf None true))) = PayloadBody payload.
Proof.
  split.
  - exact (proj2 (proj1 (proj2 (X10_status_tells_the_outcome healthyWorld
                                  {| message := Some ""; pagesToCrawl := None;
                                     skipEmbeddings := None |}))) eq_refl).
  - exact (proj1 (proj1 (proj2 (proj2 (X10_status_tells_the_outcome healthyWorld
                                         (requestOf None true))))) eq_refl).
Defined.

(** ** The calls of a request, in full *)

Lemma fromTexts_run (W : World) (texts : list string) (meta : PageMetadata) :
  fromTexts W texts meta =
  ([EmbedDocumentsCall texts],
   match embedDocuments W texts with
   | Returned vectors =>
       Returned (map (fun tv => {| mv_content := fst tv; embedding := snd tv;
                                   mv_metadata := meta |})
                     (combine texts vectors))
   | Thrown e => Thrown e
   end).
Proof.
  unfold fromTexts, await. rewrite bind_run. simpl.
  destruct (embedDocuments W texts); reflexivity.
Qed.

Lemma promise_all_trace {A B : Type} (f : A -> Async B) (g : A -> Call)
    (xs issued settled : list A) :
  (forall x, fst (f x) = [g x]) -> fst (promise_all f xs issued settled) = map g issued.
Proof.
  intros H. cbn [promise_all fst].
  induction issued as [| x issued IH]; cbn [map List.concat]; [reflexivity | ].
  rewrite IH, H. reflexivity.
Qed.

Lemma issueOrder_nil (W : World) : issueOrder W [] = [].
Proof. apply Permutation_nil. apply Permutation_sym. apply issueOrder_perm. Qed.

Lemma settleOrder_nil (W : World) : settleOrder W [] = [].
Proof. apply Permutation_nil. apply Permutation_sym. apply settleOrder_perm. Qed.

(** One embedding call for each page, in the order in which the pages
    come to it, whether or not one of them fails. *)
Lemma processWithEmbeddings_trace (W : World) (pages : list ScrapedPage) (size overlap : Z) :
  fst (processWithEmbeddings W pages size overlap) =
  map (fun page => EmbedDocumentsCall (splitText W size overlap (content page)))
      (issueOrder W pages).
Proof.
  unfold processWithEmbeddings. rewrite bind_run.
  rewrite (promise_all_trace _
             (fun page => EmbedDocumentsCall (splitText W size overlap (content page))))
    by (intros page; cbv zeta; rewrite fromTexts_run; reflexivity).
  destruct (snd (promise_all _ pages _ _)) as [[| s others] | e]; cbn [fst].
  - apply app_nil_r.
  - rewrite bind_run, combine_stores_trace.
    destruct (snd (combine_stores W s others)); cbn [fst]; apply app_nil_r.
  - reflexivity.
Qed.

Lemma buildContext_trace (W : World) (pages : list ScrapedPage) (m : string) :
  fst (buildContext W pages m false) =
  (embedCalls W (issueOrder W pages) ++
   match snd (processWithEmbeddings W pages textChunkSize textChunkOverlap) with
   | Returned (Some _) => [EmbedQueryCall m]
   | _ => []
   end)%list.
Proof.
  unfold buildContext. rewrite bind_run, processWithEmbeddings_trace.
  fold (windowsOf W). unfold embedCalls, windowsOf.
  destruct (snd (processWithEmbeddings W pages textChunkSize textChunkOverlap))
    as [[store | ] | e]; cbn [fst]; try reflexivity.
  - rewrite bind_run, similaritySearch_run. cbn [fst snd].
    destruct (embedQuery W m); reflexivity.
  - symmetry. apply app_nil_r.
Qed.

Lemma POST_trace_shape (W : World) (request : RequestBody) (m : string)
    (pages : list ScrapedPage) :
  message request = Some m -> JS.truthy m = true ->
  snd (mapAndScrapeUrls W m (validatePagesToCrawl (requested_pagesToCrawl request)))
    = Returned pages ->
  fst (POST W request) =
  (fst (mapAndScrapeUrls W m (validatePagesToCrawl (requested_pagesToCrawl request))) ++
   fst (buildContext W pages m (requested_skipEmbeddings request)) ++
   match snd (buildContext W pages m (requested_skipEmbeddings request)) with
   | Returned context => [RouteCall (systemMessage W context) m]
   | Thrown _ => []
   end)%list.
Proof.
  intros Hm Ht Hs. rewrite (POST_answer W request m Hm Ht), answerQuery_run. cbv zeta.
  rewrite Hs. destruct (snd (buildContext W pages m _)); cbn [fst].
  - reflexivity.
  - rewrite app_nil_r. reflexivity.
Qed.

Lemma mapAndScrapeUrls_trace (W : World) (m : string) (n : Z) :
  fst (mapAndScrapeUrls W m n) = [SearchCall m] \/
  exists urls, fst (mapAndScrapeUrls W m n) = [SearchCall m; ScrapeCall urls].
Proof.
  rewrite mapAndScrapeUrls_run.
  destruct (snd (serperSearch W m n)) as [results | e]; [ | left; reflexivity].
  destruct (filterUrls (map link results)) as [| u us]; [left; reflexivity | ].
  right. exists (u :: us). reflexivity.
Qed.

Lemma sorted_app (l1 l2 : list Call) :
  StronglySorted may_precede l1 -> StronglySorted may_precede l2 ->
  (forall x y, In x l1 -> In y l2 -> may_precede x y) ->
  StronglySorted may_precede (l1 ++ l2).
Proof.
  intros H1 H2 Hx. induction H1 as [| a l Hl IH Ha]; [exact H2 | ].
  cbn [app]. constructor.
  - apply IH. intros x y Hin. apply Hx. right. exact Hin.
  - apply Forall_app. split; [exact Ha | ].
    apply Forall_forall. intros y Hy. apply Hx; [left; reflexivity | exact Hy].
Qed.

Lemma embedCalls_sorted (W : World) (pages : list ScrapedPage) :
  StronglySorted may_precede (embedCalls W pages).
Proof.
  induction pages as [| page pages IH]; [constructor | ].
  cbn [embedCalls map]. constructor; [exact IH | ].
  apply Forall_map. apply Forall_forall. intros q _. right. split; reflexivity.
Qed.

Lemma embedCalls_stage (W : World) (pages : list ScrapedPage) (c : Call) :
  In c (embedCalls W pages) -> stage_of c = 2%nat.
Proof.
  unfold embedCalls. rewrite in_map_iff. intros [page [<- _]]. reflexivity.
Qed.

(** The calls of the context stage are sorted and belong to the stages 2
    and 3; a call that carries the query carries [m]. *)
Lemma buildContext_calls_sorted (W : World) (pages : list ScrapedPage) (m : string)
    (skip : bool) :
  StronglySorted may_precede (fst (buildContext W pages m skip)) /\
  Forall (fun c => (2 <= stage_of c <= 3)%nat /\ carries_query m c)
         (fst (buildContext W pages m skip)).
Proof.
  destruct skip; [split; constructor | ].
  rewrite buildContext_trace. split.
  - apply sorted_app; [apply embedCalls_sorted | | ].
    + destruct (snd (processWithEmbeddings W pages _ _)) as [[s | ] | e];
        repeat constructor.
    + intros x y Hx Hy. apply embedCalls_stage in Hx.
      destruct (snd (processWithEmbeddings W pages _ _)) as [[s | ] | e];
        try contradiction.
      destruct Hy as [<- | []]. left. rewrite Hx. cbn. lia.
  - apply Forall_app. split.
    + apply Forall_forall. intros c Hc.
      pose proof (embedCalls_stage W (issueOrder W pages) c Hc) as Hs.
      split; [lia | ]. destruct c; try discriminate Hs. exact I.
    + destruct (snd (processWithEmbeddings W pages _ _)) as [[s | ] | e];
        repeat constructor; cbn; lia.
Qed.

Lemma sorted_once (l : list Call) (k : nat) :
  StronglySorted may_precede l -> k <> 2%nat ->
  (length (filter (fun c => Nat.eqb (stage_of c) k) l) <= 1)%nat.
Proof.
  intros Hs Hk. induction Hs as [| a l Hl IH Ha]; [cbn; lia | ].
  cbn [filter]. destruct (Nat.eqb_spec (stage_of a) k) as [E | E]; [ | exact IH].
  assert (Hnone : filter (fun c => Nat.eqb (stage_of c) k) l = []).
  { apply filter_none. eapply Forall_impl; [ | exact Ha].
    intros c [Hlt | [H2 _]]; [apply Nat.eqb_neq; lia | congruence]. }
  rewrite Hnone. cbn. lia.
Qed.

(** X11.  The calls of a request come in the order of the stages: the
    search, then the scrape, then the embedding of the pages' windows,
    then the embedding of the query, then the model router.  The search,
    the scrape, the query embedding and the router are each called at
    most once; nothing is called again after a later stage has begun. *)
Theorem X11_calls_follow_the_stages (W : World) (request : RequestBody) :
  StronglySorted may_precede (fst (POST W request)) /\
  (length (filter (fun c => Nat.eqb (stage_of c) 0) (fst (POST W request))) <= 1)%nat /\
  (length (filter (fun c => Nat.eqb (stage_of c) 1) (fst (POST W request))) <= 1)%nat /\
  (length (filter (fun c => Nat.eqb (stage_of c) 3) (fst (POST W request))) <= 1)%nat /\
  (length (filter (fun c => Nat.eqb (stage_of c) 4) (fst (POST W request))) <= 1)%nat.
Proof.
  assert (Hs : StronglySorted may_precede (fst (POST W request))).
  { destruct (JS.truthy_opt (message request)) eqn:E.
    - assert (Hm : exists m, message request = Some m /\ JS.truthy m = true).
      { unfold JS.truthy_opt in E. destruct (message request) as [m | ]; [ | discriminate].
        exists m. split; [reflexivity | exact E]. }
      destruct Hm as [m [Hm Ht]].
      assert (Hscrape :
                StronglySorted may_precede
                  (fst (mapAndScrapeUrls W m
                          (validatePagesToCrawl (requested_pagesToCrawl request)))) /\
                Forall (fun c => (stage_of c <= 1)%nat)
                  (fst (mapAndScrapeUrls W m
                          (validatePagesToCrawl (requested_pagesToCrawl request))))).
      { destruct (mapAndScrapeUrls_trace W m
                    (validatePagesToCrawl (requested_pagesToCrawl request)))
          as [-> | [urls ->]]; split; repeat constructor. }
      destruct Hscrape as [Hs1 Hs2]. rewrite Forall_forall in Hs2.
      destruct (snd (mapAndScrapeUrls W m
                       (validatePagesToCrawl (requested_pagesToCrawl request))))
        as [pages | e] eqn:Es.
      + rewrite (POST_trace_shape W request m pages Hm Ht Es).
        destruct (buildContext_calls_sorted W pages m (requested_skipEmbeddings request))
          as [Hb1 Hb2].
        rewrite Forall_forall in Hb2.
        apply sorted_app; [exact Hs1 | | ].
        * apply sorted_app; [exact Hb1 | | ].
          -- destruct (snd (buildContext W pages m _)); repeat constructor.
          -- intros x y Hx Hy. destruct (Hb2 x Hx) as [Hx' _].
             destruct (snd (buildContext W pages m _)); [ | contradiction].
             destruct Hy as [<- | []]. left. cbn. lia.
        * intros x y Hx Hy. apply Hs2 in Hx. left.
          apply in_app_or in Hy. destruct Hy as [Hy | Hy].
          -- destruct (Hb2 y Hy) as [Hy' _]. lia.
          -- destruct (snd (buildContext W pages m _)); [ | contradiction].
             destruct Hy as [<- | []]. cbn. lia.
      + rewrite (POST_scrape_thrown W request m e Hm Ht Es). exact Hs1.
    - rewrite (POST_rejected W request E). constructor. }
  split; [exact Hs | ].
  repeat split; apply sorted_once; try exact Hs; discriminate.
Qed.

(** X12.  The query text reaches the services as the caller wrote it: the
    search call, the query-embedding call and the user message of the
    routing call all carry the request's [message], unchanged. *)
Theorem X12_query_is_passed_unchanged (W : World) (request : RequestBody) (m : string) :
  message request = Some m ->
  Forall (carries_query m) (fst (POST W request)).
Proof.
  intros Hm. destruct (JS.truthy m) eqn:Ht.
  - assert (Hscrape : Forall (carries_query m)
                        (fst (mapAndScrapeUrls W m
                                (validatePagesToCrawl (requested_pagesToCrawl request))))).
    { destruct (mapAndScrapeUrls_trace W m
                  (validatePagesToCrawl (requested_pagesToCrawl request)))
        as [-> | [urls ->]]; repeat constructor. }
    destruct (snd (mapAndScrapeUrls W m
                     (validatePagesToCrawl (requested_pagesToCrawl request))))
      as [pages | e] eqn:Es.
    + rewrite (POST_trace_shape W request m pages Hm Ht Es).
      apply Forall_app. split; [exact Hscrape | ]. apply Forall_app. split.
      * eapply Forall_impl; [ | apply buildContext_calls_sorted]. intros c [_ H]. exact H.
      * destruct (snd (buildContext W pages m _)); repeat constructor.
    + rewrite (POST_scrape_thrown W request m e Hm Ht Es). exact Hscrape.
  - rewrite POST_rejected; [constructor | ]. unfold JS.truthy_opt. rewrite Hm. exact Ht.
Qed.

Lemma X12_query_is_passed_unchanged_witness :
  Forall (carries_query question) (fst (POST healthyWorld (requestOf None false))) /\
  In (EmbedQueryCall question) (fst (POST healthyWorld (requestOf None false))).
Proof.
  split.
  - exact (X12_query_is_passed_unchanged healthyWorld (requestOf None false) question eq_refl).
  - vm_compute. tauto.
Defined.

Lemma filter_all {A : Type} (f : A -> bool) (l : list A) :
  Forall (fun x => f x = true) l -> filter f l = l.
Proof.
  induction 1 as [| x l Hx _ IH]; simpl; [reflexivity | ]. rewrite Hx, IH. reflexivity.
Qed.

Lemma embedCalls_perm (W : World) (pages : list ScrapedPage) :
  Permutation (embedCalls W (issueOrder W pages)) (embedCalls W pages).
Proof. unfold embedCalls. apply Permutation_map. apply issueOrder_perm. Qed.

Lemma processWithEmbeddings_no_page (W : World) (size overlap : Z) :
  processWithEmbeddings W [] size overlap = ([], Returned None).
Proof.
  unfold processWithEmbeddings. rewrite issueOrder_nil, settleOrder_nil. reflexivity.
Qed.

Lemma buildContext_no_page (W : World) (m : string) :
  buildContext W [] m false =
  ([], Thrown "Cannot read properties of undefined (reading 'similaritySearch')").
Proof. unfold buildContext. rewrite processWithEmbeddings_no_page. reflexivity. Qed.

(** X13.  In embedding mode every page the scrape stage returned is cut
    into windows with chunk size 800 and overlap 200 and embedded in a
    call of its own: the embedding calls of the request are one for each
    page, made in the order in which the pages' windows are ready, which
    need not be the order of the pages; they are all made even when one
    of them fails.  In direct mode the embedding service is not called
    at all. *)
Theorem X13_one_embedding_call_per_page (W : World) (request : RequestBody) (m : string)
    (pages : list ScrapedPage) :
  message request = Some m -> JS.truthy m = true ->
  snd (mapAndScrapeUrls W m (validatePagesToCrawl (requested_pagesToCrawl request)))
    = Returned pages ->
  (requested_skipEmbeddings request = false ->
   filter (fun c => Nat.eqb (stage_of c) 2) (fst (POST W request)) =
     map (fun page => EmbedDocumentsCall (splitText W 800 200 (content page)))
         (issueOrder W pages) /\
   Permutation
     (filter (fun c => Nat.eqb (stage_of c) 2) (fst (POST W request)))
     (map (fun page => EmbedDocumentsCall (splitText W 800 200 (content page))) pages)) /\
  (requested_skipEmbeddings request = true ->
   Forall (fun c => service_of c <> Embedding) (fst (POST W request))).
Proof.
  intros Hm Ht Hs.
  assert (Hscrape : Forall (fun c => (stage_of c <= 1)%nat)
                      (fst (mapAndScrapeUrls W m
                              (validatePagesToCrawl (requested_pagesToCrawl request))))).
  { destruct (mapAndScrapeUrls_trace W m
                (validatePagesToCrawl (requested_pagesToCrawl request)))
      as [-> | [urls ->]]; repeat constructor. }
  assert (Hcalls :
            requested_skipEmbeddings request = false ->
            filter (fun c => Nat.eqb (stage_of c) 2) (fst (POST W request)) =
            embedCalls W (issueOrder W pages)).
  { intros Hskip. rewrite (POST_trace_shape W request m pages Hm Ht Hs), Hskip.
    rewrite buildContext_trace, !filter_app.
    rewrite (filter_none (fun c => Nat.eqb (stage_of c) 2)
               (fst (mapAndScrapeUrls W m
                       (validatePagesToCrawl (requested_pagesToCrawl request))))).
    2: { eapply Forall_impl; [ | exact Hscrape]. intros c Hc. cbv beta in Hc.
         apply Nat.eqb_neq. lia. }
    rewrite (filter_all (fun c => Nat.eqb (stage_of c) 2)
               (embedCalls W (issueOrder W pages))).
    2: { apply Forall_forall. intros c Hc.
         rewrite (embedCalls_stage W (issueOrder W pages) c Hc). reflexivity. }
    cbn [app].
    destruct (snd (processWithEmbeddings W pages textChunkSize textChunkOverlap))
      as [[s | ] | e];
      destruct (snd (buildContext W pages m false)); cbn; rewrite ?app_nil_r; reflexivity. }
  split; intros Hskip.
  - split; [exact (Hcalls Hskip) | ].
    rewrite (Hcalls Hskip). apply (embedCalls_perm W pages).
  - rewrite (POST_trace_shape W request m pages Hm Ht Hs), Hskip.
    apply Forall_app. split.
    + eapply Forall_impl; [ | exact Hscrape]. intros [] Hc; cbn in Hc; try lia; discriminate.
    + cbn [buildContext ret fst snd app]. repeat constructor. discriminate.
Qed.

Lemma X13_one_embedding_call_per_page_witness :
  filter (fun c => Nat.eqb (stage_of c) 2)
         (fst (POST lateFirstWorld (requestOf (Some 3) false))) =
    [EmbedDocumentsCall ["BBB"]; EmbedDocumentsCall ["AAA"]] /\
  Forall (fun c => service_of c <> Embedding)
         (fst (POST healthyWorld (requestOf (Some 3) true))).
Proof.
  pose (pages := map to_ScrapedPage [scrapedDoc "https://example.org/a" "AAA";
                                     scrapedDoc "https://news.site/b/" "BBB"]).
  split.
  - exact (proj1 (proj1 (X13_one_embedding_call_per_page lateFirstWorld
                           (requestOf (Some 3) false) question pages
                           eq_refl eq_refl eq_refl)
                        eq_refl)).
  - exact (proj2 (X13_one_embedding_call_per_page healthyWorld
                    (requestOf (Some 3) true) question pages eq_refl eq_refl eq_refl)
                 eq_refl).
Defined.

(** X14.  A scrape that succeeds without a single usable document gives
    no page and no sentinel.  In embedding mode the request then fails
    with status 500 on the missing vector store, before any embedding or
    routing call; in direct mode it goes on with an empty context and a
    completion gives a success with no source and
    [actualPagesCrawled = 0]. *)
Theorem X14_no_usable_document (W : World) (request : RequestBody) (m : string) :
  message request = Some m -> JS.truthy m = true ->
  snd (mapAndScrapeUrls W m (validatePagesToCrawl (requested_pagesToCrawl request)))
    = Returned [] ->
  (requested_skipEmbeddings request = false ->
   POST W request =
   (fst (mapAndScrapeUrls W m (validatePagesToCrawl (requested_pagesToCrawl request))),
    {| http_status := 500;
       body := ErrorBody
                 "Cannot read properties of undefined (reading 'similaritySearch')" |})) /\
  (requested_skipEmbeddings request = true ->
   forall c ps,
     notDiamond_create W "Answer based on the following pages of content: " m
       = Returned (Completion c ps) ->
     snd (POST W request) =
     {| http_status := 200;
        body := PayloadBody
          {| answer := Some c;
             selectedModel := nth_error ps 0;
             crawlInfo :=
               {| requestedPages := requested_pagesToCrawl request;
                  actualPagesCrawled := 0;
                  embeddingsUsed := false |};
             sources := [] |} |}).
Proof.
  intros Hm Ht Hs. split; intros Hskip.
  - rewrite (POST_answer W request m Hm Ht), answerQuery_run. cbv zeta.
    rewrite Hs, Hskip, buildContext_no_page. cbn [fst snd]. rewrite app_nil_r.
    reflexivity.
  - intros c ps Hc.
    rewrite (POST_routed W request m [] (DirectContext "") Hm Ht Hs);
      [ | rewrite Hskip; reflexivity].
    change (notDiamond_create W (systemMessage W (DirectContext "")) m
            = Returned (Completion c ps)) in Hc.
    cbn [snd]. rewrite Hc, Hskip. reflexivity.
Qed.

Lemma X14_no_usable_document_witness :
  POST emptyPagesWorld (requestOf (Some 3) false) =
    ([SearchCall question; ScrapeCall ["https://example.org/a"; "https://news.site/b/"]],
     {| http_status := 500;
        body := ErrorBody
                  "Cannot read properties of undefined (reading 'similaritySearch')" |}) /\
  snd (POST emptyPagesWorld (requestOf (Some 3) true)) =
    {| http_status := 200;
       body := PayloadBody
         {| answer := Some "An answer.";
            selectedModel := Some gpt4oMini;
            crawlInfo :=
              {| requestedPages := 3; actualPagesCrawled := 0; embeddingsUsed := false |};
            sources := [] |} |}.
Proof.
  split.
  - exact (proj1 (X14_no_usable_document emptyPagesWorld (requestOf (Some 3) false)
                    question eq_refl eq_refl eq_refl) eq_refl).
  - exact (proj2 (X14_no_usable_document emptyPagesWorld (requestOf (Some 3) true)
                    question eq_refl eq_refl eq_refl) eq_refl
                 "An answer." [gpt4oMini] eq_refl).
Defined.

(** ** Embedding mode *)



Lemma all_returned_Forall2 {A B : Type} (f : A -> Async B) (xs : list A) (ys : list B) :
  all_returned f xs = Returned ys ->
  Forall2 (fun x y => snd (f x) = Returned y) xs ys.
Proof.
  revert ys. induction xs as [| x xs IH]; intros ys; cbn [all_returned].
  - intros H. injection H as <-. constructor.
  - destruct (snd (f x)) as [y | e] eqn:E; [ | discriminate].
    destruct (all_returned f xs) as [ys' | e]; [ | discriminate].
    intros H. injection H as <-. constructor; [exact E | apply IH; reflexivity].
Qed.

(** The values of a [Promise.all] that returns are those of the elements,
    in the order of the array. *)
Lemma promise_all_returned {A B : Type} (f : A -> Async B) (xs issued settled : list A)
    (ys : list B) :
  snd (promise_all f xs issued settled) = Returned ys ->
  Forall2 (fun x y => snd (f x) = Returned y) xs ys.
Proof.
  cbn [promise_all snd]. destruct (first_thrown f settled); [discriminate | ].
  apply all_returned_Forall2.
Qed.




Lemma every_false_cons {A : Type} (f : A -> bool) (l : list A) :
  (forall x, f x = false) -> JS.every f l = match l with [] => true | _ :: _ => false end.
Proof. intros H. destruct l as [| x l]; [reflexivity | ]. cbn. rewrite H. reflexivity. Qed.

Lemma every_true {A : Type} (f : A -> bool) (l : list A) :
  (forall x, f x = true) -> JS.every f l = true.
Proof. intros H. apply forallb_forall. intros x _. apply H. Qed.

Lemma processWithEmbeddings_returned (W : World) (page : ScrapedPage)
    (rest : list ScrapedPage) (size overlap : Z) (store : MemoryVectorStore W) :
  snd (processWithEmbeddings W (page :: rest) size overlap) = Returned (Some store) ->
  exists first others,
    snd (fromTexts W (splitText W size overlap (content page))
                   {| meta_url := url page; meta_title := title page |}) = Returned first /\
    Forall2 (fun p s =>
               snd (fromTexts W (splitText W size overlap (content p))
                              {| meta_url := url p; meta_title := title p |}) = Returned s)
            rest others /\
    snd (combine_stores W first others) = Returned store.
Proof.
  unfold processWithEmbeddings. intros H. apply bind_inv in H.
  destruct H as [stores [Hall H]]. apply promise_all_returned in Hall.
  inversion Hall as [| p s ps others Hp Hrest]; subst.
  apply bind_inv in H. destruct H as [merged [Hc H]]. injection H as <-.
  exists s, others. split; [exact Hp | ]. split; [exact Hrest | exact Hc].
Qed.

(** X16.  The merge of the pages' vector stores hangs on what
    [Array.isArray] answers on a stored entry.  If it answers [false] on
    every entry (and adding no vector leaves a store as it is), no entry
    of a later page is ever added: the store that is searched holds the
    windows of the first page only, each with that page's url and title.
    If it answers [true] on every entry and [addVectors] appends, the
    store holds the entries of all the pages, in their order. *)
Theorem X16_merge_hangs_on_isArray (W : World) (first : MemoryVectorStore W)
    (others : list (MemoryVectorStore W)) (page : ScrapedPage) (rest : list ScrapedPage)
    (size overlap : Z) (store : MemoryVectorStore W) :
  ((forall v, memoryVector_isArray W v = false) ->
   (forall s, addVectors W s [] = Returned s) ->
   combine_stores W first others = ([], Returned first) /\
   (snd (processWithEmbeddings W (page :: rest) size overlap) = Returned (Some store) ->
    snd (fromTexts W (splitText W size overlap (content page)) (metadataOf page))
      = Returned store /\
    Forall (fun v => mv_metadata v = metadataOf page /\
                     In (mv_content v) (splitText W size overlap (content page))) store)) /\
  ((forall v, memoryVector_isArray W v = true) ->
   (forall s vs, addVectors W s vs = Returned (s ++ vs)%list) ->
   combine_stores W first others = ([], Returned (first ++ List.concat others)%list)).
Proof.
  split.
  - intros Hno Hadd.
    assert (Hskip : forall l s, combine_stores W s l = ([], Returned s)).
    { induction l as [| current l IH]; intros s; cbn [combine_stores]; [reflexivity | ].
      rewrite (every_false_cons _ current Hno). destruct current as [| v current].
      - rewrite bind_run. unfold settle. cbn [fst snd]. rewrite Hadd, IH. reflexivity.
      - apply IH. }
    split; [apply Hskip | ]. intros H.
    apply processWithEmbeddings_returned in H.
    destruct H as [s [stores [Hs [_ Hc]]]]. rewrite Hskip in Hc. injection Hc as <-.
    split; [exact Hs | ].
    rewrite fromTexts_run in Hs. cbn [snd] in Hs.
    destruct (embedDocuments W (splitText W size overlap (content page))) as [vectors | e];
      [ | discriminate].
    injection Hs as <-. apply Forall_map. apply Forall_forall. intros [t v] Hin.
    cbn [mv_metadata mv_content fst]. split; [reflexivity | ].
    apply (in_combine_l _ _ _ _ Hin).
  - intros Hall Hadd. revert first.
    induction others as [| current l IH]; intros first; cbn [combine_stores List.concat].
    + rewrite app_nil_r. reflexivity.
    + rewrite (every_true _ current Hall), bind_run. unfold settle. cbn [fst snd].
      rewrite Hadd, IH, app_assoc. reflexivity.
Qed.

Lemma X16_merge_hangs_on_isArray_witness :
  snd (processWithEmbeddings windowedWorld
         [{| url := "u1"; title := "A"; content := "c1" |};
          {| url := "u2"; title := "B"; content := "c2" |}] 800 200) =
  Returned (Some [{| mv_content := "c1#1"; embedding := 4%nat;
                     mv_metadata := {| meta_url := "u1"; meta_title := "A" |} |};
                  {| mv_content := "c1#2"; embedding := 4%nat;
                     mv_metadata := {| meta_url := "u1"; meta_title := "A" |} |};
                  {| mv_content := "c1#3"; embedding := 4%nat;
                     mv_metadata := {| meta_url := "u1"; meta_title := "A" |} |}]) /\
  Forall (fun v => mv_metadata v = {| meta_url := "u1"; meta_title := "A" |})
         [{| mv_content := "c1#1"; embedding := 4%nat;
             mv_metadata := {| meta_url := "u1"; meta_title := "A" |} |};
          {| mv_content := "c1#2"; embedding := 4%nat;
             mv_metadata := {| meta_url := "u1"; meta_title := "A" |} |};
          {| mv_content := "c1#3"; embedding := 4%nat;
             mv_metadata := {| meta_url := "u1"; meta_title := "A" |} |}].
Proof.
  split; [reflexivity | ].
  destruct (X16_merge_hangs_on_isArray windowedWorld [] []
              {| url := "u1"; title := "A"; content := "c1" |}
              [{| url := "u2"; title := "B"; content := "c2" |}] 800 200
              [{| mv_content := "c1#1"; embedding := 4%nat;
                  mv_metadata := {| meta_url := "u1"; meta_title := "A" |} |};
               {| mv_content := "c1#2"; embedding := 4%nat;
                  mv_metadata := {| meta_url := "u1"; meta_title := "A" |} |};
               {| mv_content := "c1#3"; embedding := 4%nat;
                  mv_metadata := {| meta_url := "u1"; meta_title := "A" |} |}])
    as [H _].
  destruct (H (fun _ => eq_refl) (fun s => f_equal Returned (app_nil_r s))) as [_ H'].
  destruct (H' eq_refl) as [_ Hf].
  eapply Forall_impl; [ | exact Hf]. intros v [Hv _]. exact Hv.
Defined.

Lemma firstn_incl {A : Type} (n : nat) (l : list A) (x : A) : In x (firstn n l) -> In x l.
Proof.
  intros H. rewrite <- (firstn_skipn n l). apply in_or_app. left. exact H.
Qed.

Lemma fromTexts_entries (W : World) (texts : list string) (meta : PageMetadata)
    (s : MemoryVectorStore W) :
  snd (fromTexts W texts meta) = Returned s ->
  Forall (fun v => mv_metadata v = meta /\ In (mv_content v) texts) s.
Proof.
  rewrite fromTexts_run. cbn [snd].
  destruct (embedDocuments W texts) as [vectors | e]; [ | discriminate].
  intros H. injection H as <-. apply Forall_map. apply Forall_forall. intros [t v] Hin.
  cbn [mv_metadata mv_content fst]. split; [reflexivity | ].
  apply (in_combine_l _ _ _ _ Hin).
Qed.

Lemma combine_stores_Forall (W : World) (P : MemoryVector (Vec W) -> Prop)
    (others : list (MemoryVectorStore W)) (first merged : MemoryVectorStore W) :
  (forall s vs s', addVectors W s vs = Returned s' -> incl s' (s ++ vs)) ->
  snd (combine_stores W first others) = Returned merged ->
  Forall P first -> Forall (Forall P) others -> Forall P merged.
Proof.
  intros Hadd. revert first.
  induction others as [| current l IH]; intros first; cbn [combine_stores].
  - intros H Hf _. injection H as <-. exact Hf.
  - intros H Hf Ho. inversion Ho as [| ? ? Hc Hl]; subst.
    destruct (JS.every (memoryVector_isArray W) current); [ | apply (IH first H Hf Hl)].
    rewrite bind_run in H. unfold settle in H. cbn [fst snd] in H.
    destruct (addVectors W first current) as [s' | e] eqn:E; [ | discriminate].
    cbn [snd] in H. apply (IH s' H); [ | exact Hl].
    apply Forall_forall. intros v Hv. apply (Hadd _ _ _ E) in Hv.
    apply in_app_or in Hv. rewrite Forall_forall in Hf, Hc.
    destruct Hv as [Hv | Hv]; auto.
Qed.

(** X17.  Provided the ranking returns entries of the store it is given
    and [addVectors] adds nothing but the vectors it is given, every
    excerpt handed to the model router comes from a scraped page: its
    text is one of that page's windows and its metadata is that page's
    url and title. *)
Theorem X17_excerpts_come_from_pages (W : World) (pages : list ScrapedPage) (m : string)
    (context : Context) :
  (forall q s, incl (rank W q s) s) ->
  (forall s vs s', addVectors W s vs = Returned s' -> incl s' (s ++ vs)) ->
  snd (buildContext W pages m false) = Returned context ->
  exists docs,
    context = Excerpts docs /\
    Forall (fun d => exists page,
                       In page pages /\
                       doc_metadata d = metadataOf page /\
                       In (pageContent d) (windowsOf W page)) docs.
Proof.
  intros Hrank Hadd H. unfold buildContext in H.
  apply bind_inv in H. destruct H as [[store | ] [Hstore H]]; [ | discriminate].
  apply bind_inv in H. destruct H as [docs [Hd H]]. injection H as <-.
  exists docs. split; [reflexivity | ].
  rewrite similaritySearch_run in Hd. cbn [snd] in Hd.
  destruct (embedQuery W m) as [qv | e]; [ | discriminate]. injection Hd as <-.
  set (good := fun v : MemoryVector (Vec W) =>
                 exists page, In page pages /\ mv_metadata v = metadataOf page /\
                              In (mv_content v) (windowsOf W page)).
  assert (Hgood : Forall good store).
  { destruct pages as [| page rest].
    - rewrite processWithEmbeddings_no_page in Hstore. discriminate.
    - apply processWithEmbeddings_returned in Hstore.
      destruct Hstore as [first [others [Hf [Ho Hc]]]].
      apply (combine_stores_Forall W good others first store Hadd Hc).
      + apply fromTexts_entries in Hf. eapply Forall_impl; [ | exact Hf].
        intros v [Hv1 Hv2]. exists page. split; [left; reflexivity | ]. split; assumption.
      + clear Hc Hf. induction Ho as [| p s ps ss Hp _ IH]; constructor.
        * apply fromTexts_entries in Hp. eapply Forall_impl; [ | exact Hp].
          intros v [Hv1 Hv2]. exists p. split; [right; left; reflexivity | ].
          split; assumption.
        * eapply Forall_impl; [ | exact IH]. intros s' Hs'.
          eapply Forall_impl; [ | exact Hs']. intros v [p' [Hin Hv]].
          exists p'. split; [ | exact Hv].
          destruct Hin as [<- | Hin]; [left; reflexivity | right; right; exact Hin]. }
  apply Forall_map. apply Forall_forall. intros v Hv.
  apply (firstn_incl numberOfSimilarityResults (rank W qv store) v) in Hv.
  apply Hrank in Hv.
  rewrite Forall_forall in Hgood. apply (Hgood v Hv).
Qed.

Lemma X17_excerpts_come_from_pages_witness :
  exists docs,
    snd (buildContext windowedWorld
           [{| url := "u1"; title := "A"; content := "c1" |}] question false)
      = Returned (Excerpts docs) /\
    Forall (fun d => doc_metadata d = {| meta_url := "u1"; meta_title := "A" |}) docs.
Proof.
  destruct (X17_excerpts_come_from_pages windowedWorld
              [{| url := "u1"; title := "A"; content := "c1" |}] question
              (Excerpts [{| pageContent := "c1#1";
                            doc_metadata := {| meta_url := "u1"; meta_title := "A" |} |};
                         {| pageContent := "c1#2";
                            doc_metadata := {| meta_url := "u1"; meta_title := "A" |} |}])
              (fun _ s v H => H)
              (fun s vs s' H => match H in (_ = r) return
                                      match r with
                                      | Returned x => incl x (s ++ vs)
                                      | Thrown _ => True
                                      end
                                with eq_refl => fun v Hv => Hv end)
              eq_refl) as [docs [Hd Hf]].
  exists docs. split; [rewrite <- Hd; reflexivity | ].
  eapply Forall_impl; [ | exact Hf].
  intros d [page [[<- | []] [Hm _]]]. exact Hm.
Defined.

(** ** Direct mode *)

Lemma processDirectContext_join (pages : list ScrapedPage) :
  processDirectContext pages = JS.join (JS.nl ++ JS.nl) (map page_block pages).
Proof.
  unfold processDirectContext. f_equal. apply map_ext. intros page. apply trim_page_block.
Qed.

Lemma concat_In (sep x : string) (l : list string) :
  In x l -> exists a b, String.concat sep l = a ++ x ++ b.
Proof.
  induction l as [| y l IH]; [contradiction | ]. intros [-> | Hin].
  - destruct l as [| z l].
    + exists "", "". cbn. rewrite append_nil_r. reflexivity.
    + exists "", (sep ++ String.concat sep (z :: l)). reflexivity.
  - destruct (IH Hin) as [a [b E]]. destruct l as [| z l]; [contradiction | ].
    exists (y ++ sep ++ a), b. rewrite concat_cons2, E, !append_assoc. reflexivity.
Qed.

Lemma concat_app (sep : string) (l1 l2 : list string) :
  l1 <> [] -> l2 <> [] ->
  String.concat sep (l1 ++ l2) = String.concat sep l1 ++ sep ++ String.concat sep l2.
Proof.
  intros H1 H2. induction l1 as [| x l1 IH]; [contradiction | ].
  destruct l1 as [| y l1].
  - destruct l2 as [| z l2]; [contradiction | reflexivity].
  - cbn [app] in *. rewrite !concat_cons2, IH, !append_assoc by discriminate. reflexivity.
Qed.

Lemma includes_within (s x p : string) :
  JS.includes s x = true -> JS.includes x p = true -> JS.includes s p = true.
Proof.
  rewrite !includes_spec. intros [a [b ->]] [c [d ->]].
  exists (a ++ c), (d ++ b). rewrite !append_assoc. reflexivity.
Qed.

Lemma page_block_includes (page : ScrapedPage) :
  JS.includes (page_block page) (title page) = true /\
  JS.includes (page_block page) (url page) = true /\
  JS.includes (page_block page) (content page) = true.
Proof.
  unfold page_block. repeat split; apply includes_spec.
  - exists "Page: ",
      (JS.nl ++ "URL: " ++ url page ++ JS.nl ++ "Content:" ++ JS.nl ++ content page ++
       JS.nl ++ "-------------------").
    reflexivity.
  - exists ("Page: " ++ title page ++ JS.nl ++ "URL: "),
      (JS.nl ++ "Content:" ++ JS.nl ++ content page ++ JS.nl ++ "-------------------").
    rewrite !append_assoc. reflexivity.
  - exists ("Page: " ++ title page ++ JS.nl ++ "URL: " ++ url page ++ JS.nl ++
            "Content:" ++ JS.nl),
      (JS.nl ++ "-------------------").
    rewrite !append_assoc. reflexivity.
Qed.

(** X18.  In direct mode nothing of a page is cut or left out: the system
    message sent to the model router contains, whole, the title, the url
    and the content of every scraped page. *)
Theorem X18_direct_context_is_complete (W : World) (pages : list ScrapedPage)
    (page : ScrapedPage) :
  In page pages ->
  let system := systemMessage W (DirectContext (processDirectContext pages)) in
  JS.includes system (page_block page) = true /\
  JS.includes system (title page) = true /\
  JS.includes system (url page) = true /\
  JS.includes system (content page) = true.
Proof.
  intros Hin. cbv zeta.
  assert (Hb : JS.includes (systemMessage W (DirectContext (processDirectContext pages)))
                 (page_block page) = true).
  { apply includes_spec. cbn [systemMessage].
    rewrite processDirectContext_join. unfold JS.join.
    destruct (concat_In (JS.nl ++ JS.nl) (page_block page) (map page_block pages))
      as [a [b Hc]]; [apply in_map; exact Hin | ].
    exists ("Answer based on the following pages of content: " ++ a), b.
    rewrite Hc, !append_assoc. reflexivity. }
  destruct (page_block_includes page) as [H1 [H2 H3]].
  split; [exact Hb | ].
  repeat split; eapply includes_within; eassumption.
Qed.

Lemma X18_direct_context_is_complete_witness :
  JS.includes
    (systemMessage healthyWorld
       (DirectContext
          (processDirectContext [{| url := "u1"; title := "A"; content := "c1" |};
                                 {| url := "u2"; title := "B"; content := "c2" |}])))
    "c2" = true.
Proof.
  destruct (X18_direct_context_is_complete healthyWorld
              [{| url := "u1"; title := "A"; content := "c1" |};
               {| url := "u2"; title := "B"; content := "c2" |}]
              {| url := "u2"; title := "B"; content := "c2" |}
              (or_intror (or_introl eq_refl))) as [_ [_ [_ H]]].
  exact H.
Defined.

(** X19.  The direct context of two runs of pages put together is the
    context of the first run, a blank line, and the context of the
    second: a page's block does not depend on the pages around it. *)
Theorem X19_direct_context_of_append (l1 l2 : list ScrapedPage) :
  l1 <> [] -> l2 <> [] ->
  processDirectContext (l1 ++ l2) =
  processDirectContext l1 ++ JS.nl ++ JS.nl ++ processDirectContext l2.
Proof.
  intros H1 H2. unfold processDirectContext, JS.join. rewrite map_app.
  rewrite concat_app, !append_assoc; [reflexivity | | ].
  - destruct l1; [contradiction | discriminate].
  - destruct l2; [contradiction | discriminate].
Qed.

Lemma X19_direct_context_of_append_witness :
  processDirectContext [{| url := "u1"; title := "A"; content := "c1" |};
                        {| url := "u2"; title := "B"; content := "c2" |}] =
  processDirectContext [{| url := "u1"; title := "A"; content := "c1" |}] ++
  JS.nl ++ JS.nl ++
  processDirectContext [{| url := "u2"; title := "B"; content := "c2" |}].
Proof.
  exact (X19_direct_context_of_append
           [{| url := "u1"; title := "A"; content := "c1" |}]
           [{| url := "u2"; title := "B"; content := "c2" |}]
           ltac:(discriminate) ltac:(discriminate)).
Defined.

(** ** The model router *)

(** X20.  A model router that throws ends the request with status 500
    and the error's own message; a completion that names no provider
    still gives a success, with [selectedModel] absent.  In both cases
    the router has been called once, with the system message rendered
    from the context and the caller's message. *)
Theorem X20_router_outcomes (W : World) (request : RequestBody) (m : string)
    (pages : list ScrapedPage) (context : Context) :
  message request = Some m -> JS.truthy m = true ->
  snd (mapAndScrapeUrls W m (validatePagesToCrawl (requested_pagesToCrawl request)))
    = Returned pages ->
  snd (buildContext W pages m (requested_skipEmbeddings request)) = Returned context ->
  (forall e, notDiamond_create W (systemMessage W context) m = Thrown e ->
             snd (POST W request) = {| http_status := 500; body := ErrorBody e |}) /\
  (forall c, notDiamond_create W (systemMessage W context) m = Returned (Completion c []) ->
             exists payload,
               snd (POST W request) = {| http_status := 200; body := PayloadBody payload |} /\
               answer payload = Some c /\ selectedModel payload = None) /\
  filter is_route (fst (POST W request)) = [RouteCall (systemMessage W context) m].
Proof.
  intros Hm Ht Hs Hb. rewrite (POST_routed W request m pages context Hm Ht Hs Hb).
  cbn [fst snd]. split; [ | split].
  - intros e ->. reflexivity.
  - intros c ->. eexists. split; [reflexivity | ]. split; reflexivity.
  - rewrite !filter_app, (filter_none _ _ (mapAndScrapeUrls_no_route W m _)),
      (filter_none _ _ (buildContext_no_route W pages m _)).
    reflexivity.
Qed.

Lemma X20_router_outcomes_witness :
  snd (POST (stubWorld threeResults twoDocs (Thrown "503 Service Unavailable"))
            (requestOf (Some 3) true)) =
    {| http_status := 500; body := ErrorBody "503 Service Unavailable" |} /\
  exists payload,
    snd (POST (stubWorld threeResults twoDocs (Returned (Completion "An answer." [])))
              (requestOf (Some 3) true)) =
      {| http_status := 200; body := PayloadBody payload |} /\
    selectedModel payload = None.
Proof.
  pose (pages := map to_ScrapedPage [scrapedDoc "https://example.org/a" "AAA";
                                     scrapedDoc "https://news.site/b/" "BBB"]).
  split.
  - exact (proj1 (X20_router_outcomes
                    (stubWorld threeResults twoDocs (Thrown "503 Service Unavailable"))
                    (requestOf (Some 3) true) question pages
                    (DirectContext (processDirectContext pages))
                    eq_refl eq_refl eq_refl eq_refl)
                 "503 Service Unavailable" eq_refl).
  - destruct (proj1 (proj2 (X20_router_outcomes
                    (stubWorld threeResults twoDocs (Returned (Completion "An answer." [])))
                    (requestOf (Some 3) true) question pages
                    (DirectContext (processDirectContext pages))
                    eq_refl eq_refl eq_refl eq_refl))
                 "An answer." eq_refl) as [payload [H1 [_ H2]]].
    exists payload. split; [exact H1 | exact H2].
Defined.
